(** * quacc.utils.kpts: k-point policy resolution and spacing-to-grid conversion

    A shallow embedding of [src/quacc/utils/kpts.py] and the properties of its
    two functions, [convert_pmg_kpts] and [kspacing_to_grid].

    - Python values that the functions inspect are an inductive type;
      [float] is IEEE binary64 (Rocq's primitive floats), as numpy's float64.
    - A Python [dict] is an association list in insertion order.
    - Exceptions are an error result; the calls made to pymatgen are recorded
      in a log next to the result, so that "this generator is never invoked"
      is a statement about the log.
    - pymatgen and ASE are collaborators: they are operations of an
      interface (a type class), and every theorem holds for all instances;
      [np.linalg.norm] is a parameter of the converter.  The numpy operations
      applied to the module's own data ([np.prod], [np.stack], [np.any],
      [np.ceil]) are definitions. *)

From Stdlib Require Import ZArith QArith Floats Ascii String.
From stdpp Require Import base list strings.

Close Scope Q_scope.

Set Warnings "-register-all".

Local Open Scope Z_scope.

(** ** Python values, truthiness and exceptions *)

Inductive pyval : Type :=
| PNone
| PBool (b : bool)
| PInt (z : Z)
| PFloat (x : float)
| PList (l : list pyval).

(** [bool(v)]: [None], [False], zero and the empty list are falsy.  A float is
    falsy when it compares equal to zero (so [-0.0] is falsy, [nan] truthy). *)
Definition truthy (v : pyval) : bool :=
  match v with
  | PNone => false
  | PBool b => b
  | PInt z => negb (z =? 0)
  | PFloat x => negb (PrimFloat.eqb x 0%float)
  | PList l => negb (Nat.eqb (length l) 0)
  end.

(** A point of reciprocal space, as a numpy array of shape (3,). *)
Definition vec3 : Type := float * float * float.

(** [pymatgen.io.vasp.inputs.Kpoints]: the attributes the module reads.
    [kpts] is a list of grids, each a tuple of Python integers (the automatic
    generators store one grid), and [style] an enumeration member of which
    only [name] is used. *)
Record KpointsSupportedModes : Type := { name : string }.

Record Kpoints : Type := {
  kpts : list (list Z);
  style : KpointsSupportedModes
}.

(** The mapping type [PmgKpts]: scheme name to parameter, in insertion order. *)
Definition PmgKpts : Type := list (string * pyval).

(** The entry of a key, if any. *)
Fixpoint dict_lookup (d : PmgKpts) (key : string) : option pyval :=
  match d with
  | [] => None
  | (k, v) :: d' => if String.eqb k key then Some v else dict_lookup d' key
  end.

(** [d.get(key)]: the value, or [None] when the key is absent. *)
Definition dict_get (d : PmgKpts) (key : string) : pyval :=
  match dict_lookup d key with
  | Some v => v
  | None => PNone
  end.

(** What the name [pmg_kpts] is bound to: the argument at first, then the
    [Kpoints] object of the last scheme evaluated (the loop rebinds it). *)
Definition binding : Type := PmgKpts + Kpoints.

(** The exceptions the module can end with: the [ValueError] of an unknown
    scheme (its message shows the current binding of [pmg_kpts]), the
    [ValueError] of [np.stack] on an empty sequence, [AttributeError] on
    [None], [KeyError], [IndexError], and [int] of a nan ([ValueError]) or of an infinity
    ([OverflowError]). *)
Inductive exn : Type :=
| UnsupportedScheme (shown : binding)
| NeedAtLeastOneArray
| NoneTypeHasNoAttribute (attr : string)
| KeyNotFound (key : string)
| IndexOutOfRange
| CannotConvertNaN
| CannotConvertInfinity.

Inductive res (A : Type) : Type :=
| Ok (a : A)
| Raise (e : exn).
Arguments Ok {A} a.
Arguments Raise {A} e.

#[export] Instance res_ret : MRet res := λ A a, Ok a.
#[export] Instance res_bind : MBind res := λ A B f m,
  match m with
  | Ok a => f a
  | Raise e => Raise e
  end.

(** ** Calls to the density scheme library, and computations that log them *)

Inductive Call : Type :=
| Call_HighSymmKpath (has_magmoms : bool) (line_density : pyval)
| Call_automatic_density_by_vol (kppvol : pyval) (force_gamma : bool)
| Call_automatic_density (kppa : pyval) (force_gamma : bool)
| Call_automatic_density_by_lengths (length_densities : pyval) (force_gamma : bool).

Definition is_density_call (c : Call) : bool :=
  match c with
  | Call_HighSymmKpath _ _ => false
  | _ => true
  end.

Definition traced (A : Type) : Type := list Call * res A.

#[export] Instance traced_ret : MRet traced := λ A a, ([], Ok a).
#[export] Instance traced_bind : MBind traced := λ A B f m,
  match m with
  | (log, Ok a) => let '(log', r) := f a in (log ++ log', r)
  | (log, Raise e) => (log, Raise e)
  end.

Definition raise {A : Type} (e : exn) : traced A := ([], Raise e).
Definition invoke {A : Type} (c : Call) (result : A) : traced A := ([c], Ok result).
Definition lift {A : Type} (r : res A) : traced A := ([], r).

(** ** numpy and built-in operations used by [convert_pmg_kpts] *)

(** [np.prod] of a tuple of Python integers that all fit numpy's default
    integer, [int64]: the array has that type and the product is taken in it,
    wrapping around.  (A tuple with an entry outside [int64] makes numpy pick
    another type, [uint64], [float64] or [object]; that case is outside this
    definition, and every statement on which of two counts is the greater
    assumes [int64_grid] below.) *)
Definition wrap64 (z : Z) : Z := (z + 2 ^ 63) mod 2 ^ 64 - 2 ^ 63.

Definition np_prod (l : list Z) : Z :=
  fold_left (λ acc d, wrap64 (acc * d)) l 1.

(** [np.stack]: a non-empty sequence of equal-shape arrays becomes one array. *)
Definition np_stack (l : list vec3) : res (list vec3) :=
  match l with
  | [] => Raise NeedAtLeastOneArray
  | _ => Ok l
  end.

(** [np.any] of the per-site magnetic moments, [None] when the property is
    absent. *)
Definition np_any (o : option (list float)) : bool :=
  match o with
  | None => false
  | Some l => existsb (λ x, truthy (PFloat x)) l
  end.

(** [int(k)] on a Python integer. *)
Definition int_ (k : Z) : Z := k.

(** [str.lower] on the ASCII range. *)
Definition lower_ascii (c : ascii) : ascii :=
  let n := nat_of_ascii c in
  if (Nat.leb 65 n && Nat.leb n 90)%bool then ascii_of_nat (n + 32) else c.

Fixpoint lower (s : string) : string :=
  match s with
  | EmptyString => EmptyString
  | String c s' => String (lower_ascii c) (lower s')
  end.

(** [d[key]] *)
Definition dict_getitem (d : PmgKpts) (key : string) : res pyval :=
  match dict_lookup d key with
  | Some v => Ok v
  | None => Raise (KeyNotFound key)
  end.

(** [x.kpts[0]] *)
Definition kpts_0 (x : Kpoints) : res (list Z) :=
  match kpts x !! 0%nat with
  | Some g => Ok g
  | None => Raise IndexOutOfRange
  end.

(** ** The collaborators *)

(** [AseAtomsAdaptor.get_structure], and the [magmom] site property of the
    structure it builds ([struct.site_properties.get("magmom", None)]). *)
Class StructureAdapter (Atoms Structure : Type) : Type := {
  get_structure : Atoms → Structure;
  site_properties_magmom : Structure → option (list float)
}.

(** pymatgen's generators.  [get_kpoints struct has_magmoms line_density] is
    the list of points of
    [HighSymmKpath(struct, path_type="latimer_munro", has_magmoms=...)
       .get_kpoints(line_density=..., coords_are_cartesian=True)];
    the three others are the class methods of [Kpoints], with the structure,
    the policy value and [force_gamma].  The operations are total: an
    exception raised inside a collaborator would leave the resolver unchanged
    and is not part of this model. *)
Class DensitySchemeLibrary (Structure : Type) : Type := {
  get_kpoints : Structure → bool → pyval → list vec3;
  automatic_density_by_vol : Structure → pyval → bool → Kpoints;
  automatic_density : Structure → pyval → bool → Kpoints;
  automatic_density_by_lengths : Structure → pyval → bool → Kpoints
}.

(** The loop's variables: [pmg_kpts] (rebound by each iteration) and
    [max_pmg_kpts]. *)
Record loop_state : Type := {
  pmg_kpts_var : binding;
  max_pmg_kpts : option Kpoints
}.

(** The first component of the pair the resolver returns: the stacked array of
    path points, or the list of grid dimensions. *)
Inductive kpts_value : Type :=
| Stacked (points : list vec3)
| IntList (grid : list Z).

(** ** [convert_pmg_kpts] *)

Section PolicyResolver.
Context {Atoms Structure : Type}.
Context {adapter : StructureAdapter Atoms Structure}.
Context {library : DensitySchemeLibrary Structure}.

(** The [if]/[elif] chain of lines 77-89: the scheme named by [k].  [shown] is
    what [pmg_kpts] is bound to when the message of line 88 is built. *)
Definition dispatch (struct : Structure) (force_gamma : bool)
    (shown : binding) (k : string) (v : pyval) : traced Kpoints :=
  if String.eqb k "kppvol" then
    invoke (Call_automatic_density_by_vol v force_gamma)
           (automatic_density_by_vol struct v force_gamma)
  else if String.eqb k "kppa" then
    invoke (Call_automatic_density v force_gamma)
           (automatic_density struct v force_gamma)
  else if String.eqb k "length_densities" then
    invoke (Call_automatic_density_by_lengths v force_gamma)
           (automatic_density_by_lengths struct v force_gamma)
  else raise (UnsupportedScheme shown).

(** Lines 91-98.  [not max_pmg_kpts] holds exactly for [None]: a [Kpoints]
    object defines neither [__bool__] nor [__len__].  The [or] evaluates the
    two products only when a best exists. *)
Definition keep_densest (cand : Kpoints) (best : option Kpoints) : res Kpoints :=
  match best with
  | None => Ok cand
  | Some m =>
      g ← kpts_0 cand;
      g_max ← kpts_0 m;
      mret (if np_prod g_max <=? np_prod g then cand else m)
  end.

(** One iteration of the loop of line 76. *)
Definition density_step (struct : Structure) (force_gamma : bool)
    (st : loop_state) (item : string * pyval) : traced loop_state :=
  cand ← dispatch struct force_gamma (pmg_kpts_var st) item.1 item.2;
  best ← lift (keep_densest cand (max_pmg_kpts st));
  mret {| pmg_kpts_var := inr cand; max_pmg_kpts := Some best |}.

(** The loop runs over the items of the dictionary passed in: the iterator is
    taken before the name is rebound. *)
Fixpoint density_loop (struct : Structure) (force_gamma : bool)
    (items : list (string * pyval)) (st : loop_state) : traced loop_state :=
  match items with
  | [] => mret st
  | item :: items' =>
      st' ← density_step struct force_gamma st item;
      density_loop struct force_gamma items' st'
  end.

(** [max_pmg_kpts.style.name.lower() == "gamma"] *)
Definition gamma_flag (x : Kpoints) : bool :=
  String.eqb (lower (name (style x))) "gamma".

(** Lines 100-101: the dereference of [max_pmg_kpts]. *)
Definition resolve_best (best : option Kpoints) : res (kpts_value * bool) :=
  match best with
  | None => Raise (NoneTypeHasNoAttribute "kpts")
  | Some m =>
      g ← kpts_0 m;
      mret (IntList (int_ <$> g), gamma_flag m)
  end.

(** Lines 63-72. *)
Definition line_branch (struct : Structure) (pmg_kpts : PmgKpts)
    : traced (kpts_value * bool) :=
  let has_magmoms := np_any (site_properties_magmom struct) in
  line_density ← lift (dict_getitem pmg_kpts "line_density");
  points ← invoke (Call_HighSymmKpath has_magmoms line_density)
                  (get_kpoints struct has_magmoms line_density);
  stacked ← lift (np_stack points);
  mret (Stacked stacked, false).

(** Lines 75-101. *)
Definition density_branch (struct : Structure) (pmg_kpts : PmgKpts)
    (force_gamma : bool) : traced (kpts_value * bool) :=
  st ← density_loop struct force_gamma pmg_kpts
         {| pmg_kpts_var := inl pmg_kpts; max_pmg_kpts := None |};
  lift (resolve_best (max_pmg_kpts st)).

Definition convert_pmg_kpts (pmg_kpts : PmgKpts) (input_atoms : Atoms)
    (force_gamma : bool) : traced (kpts_value * bool) :=
  let struct := get_structure input_atoms in
  if truthy (dict_get pmg_kpts "line_density")
  then line_branch struct pmg_kpts
  else density_branch struct pmg_kpts force_gamma.

End PolicyResolver.

(** ** [kspacing_to_grid] *)

(** The attributes of [ase.Atoms] the converter reads: the rows of
    [atoms.cell.reciprocal()] and the periodicity flags [atoms.pbc]. *)
Record AseAtoms : Type := {
  cell_reciprocal : vec3 * vec3 * vec3;
  pbc : list bool
}.

(** What [np.ceil] returns: a float64 that is nan, an infinity, or a finite
    float of integral value (every such value is a float64, so [np.ceil] is
    exact). *)
Inductive integral_float : Type :=
| FNaN
| FInf (negative : bool)
| FIntegral (value : Z).

(** The least integer at or above [(-1)^s * m * 2^e]. *)
Definition ceil_finite (s : bool) (m : positive) (e : Z) : Z :=
  let n := if s then Z.neg m else Z.pos m in
  if 0 <=? e then n * 2 ^ e else - ((- n) / 2 ^ (- e)).

Definition np_ceil (x : float) : integral_float :=
  match Prim2SF x with
  | S754_zero _ => FIntegral 0
  | S754_infinity s => FInf s
  | S754_nan => FNaN
  | S754_finite s m e => FIntegral (ceil_finite s m e)
  end.

(** [int(y)] on a float: exact on a finite value, an exception otherwise. *)
Definition int_float (y : integral_float) : res Z :=
  match y with
  | FNaN => Raise CannotConvertNaN
  | FInf _ => Raise CannotConvertInfinity
  | FIntegral z => Ok z
  end.

(** [enumerate(l)], counting from [start]. *)
Fixpoint enumerate_from {A : Type} (start : nat) (l : list A) : list (nat * A) :=
  match l with
  | [] => []
  | x :: l' => (start, x) :: enumerate_from (S start) l'
  end.

Definition enumerate {A : Type} (l : list A) : list (nat * A) := enumerate_from 0 l.

(** [l[i] = x] on a Python list: [IndexError] outside the list. *)
Definition setitem (l : list Z) (i : nat) (x : Z) : res (list Z) :=
  if decide (i < length l)%nat then Ok (<[i:=x]> l) else Raise IndexOutOfRange.

(** The loop of lines 129-131. *)
Fixpoint pbc_loop (items : list (nat * bool)) (kpoint_grid : list Z) : res (list Z) :=
  match items with
  | [] => Ok kpoint_grid
  | (i, periodic) :: items' =>
      if negb periodic
      then kpoint_grid' ← setitem kpoint_grid i 1; pbc_loop items' kpoint_grid'
      else pbc_loop items' kpoint_grid
  end.

Section SpacingConverter.
(** [np.linalg.norm] of one row of the reciprocal cell ([axis=1]). *)
Variable linalg_norm : vec3 → float.

Definition kspacing_to_grid (atoms : AseAtoms) (spacing : float) : res (list Z) :=
  let '(b_x, b_y, b_z) := cell_reciprocal atoms in
  let '(n_x, n_y, n_z) := (linalg_norm b_x, linalg_norm b_y, linalg_norm b_z) in
  g_x ← int_float (np_ceil (n_x / spacing));
  g_y ← int_float (np_ceil (n_y / spacing));
  g_z ← int_float (np_ceil (n_z / spacing));
  pbc_loop (enumerate (pbc atoms)) [Z.max 1 g_x; Z.max 1 g_y; Z.max 1 g_z].

End SpacingConverter.

(** The 2-norm as numpy computes it on a real vector. *)
Definition euclidean_norm (v : vec3) : float :=
  let '(x, y, z) := v in PrimFloat.sqrt (x * x + y * y + z * z)%float.

(** The rows of the reciprocal cell, by axis. *)
Definition reciprocal_rows (atoms : AseAtoms) : list vec3 :=
  let '(b_x, b_y, b_z) := cell_reciprocal atoms in [b_x; b_y; b_z].


(** ** Reference notions for the resolver *)

(** The three density keys. *)
Definition recognized (k : string) : bool :=
  String.eqb k "kppvol" || String.eqb k "kppa" || String.eqb k "length_densities".

(** The first grid of a [Kpoints] object, and its number of points as the
    comparison of line 95 measures it. *)
Definition grid_of (x : Kpoints) : list Z := hd [] (kpts x).
Definition count (x : Kpoints) : Z := np_prod (grid_of x).

(** A [Kpoints] object as the automatic generators build it: [kpts] has a
    first entry. *)
Definition has_grid (x : Kpoints) : Prop := kpts x ≠ [].


(** The range of numpy's default integer; a grid whose dimensions are in it
    (the case [np_prod] covers), and one whose number of points is in it. *)
Definition fits_int64 (z : Z) : Prop := - 2 ^ 63 ≤ z < 2 ^ 63.
Definition int64_grid (x : Kpoints) : Prop := Forall fits_int64 (grid_of x).

(** The spellings of "gamma" in upper and lower case, letter by letter. *)
Definition gamma_in_any_case (s : string) : Prop :=
  ∃ c1 c2 c3 c4 c5 : ascii,
    s = String c1 (String c2 (String c3 (String c4 (String c5 EmptyString)))) ∧
    (c1 = "g" ∨ c1 = "G")%char ∧ (c2 = "a" ∨ c2 = "A")%char ∧
    (c3 = "m" ∨ c3 = "M")%char ∧ (c4 = "m" ∨ c4 = "M")%char ∧
    (c5 = "a" ∨ c5 = "A")%char.

(** The rational number that a finite float stands for,
    [(-1)^s * m * 2^e]; an infinity and a nan stand for none. *)
Definition float_value (x : float) : option Q :=
  match Prim2SF x with
  | S754_zero _ => Some (inject_Z 0)
  | S754_finite s m e =>
      let n := if s then Z.neg m else Z.pos m in
      Some match e with
           | Z.neg p => Qmake n (2 ^ p)
           | _ => inject_Z (n * 2 ^ e)
           end
  | _ => None
  end.

(** [d] is the ceiling of [q]: the integer with [d - 1 < q <= d]. *)
Definition is_ceiling (q : Q) (d : Z) : Prop :=
  (inject_Z (d - 1) < q)%Q ∧ (q <= inject_Z d)%Q.

(** The densest of a list of candidates, the last one among equals; [best] is
    the densest so far. *)
Definition densest (best : option Kpoints) (cands : list Kpoints) : option Kpoints :=
  fold_left
    (λ b c, match b with
            | None => Some c
            | Some m => Some (if count m <=? count c then c else m)
            end)
    cands best.

Section ResolverReference.
Context {Structure : Type} {library : DensitySchemeLibrary Structure}.

(** The candidate of one item and the call that produces it. *)
Definition scheme (struct : Structure) (force_gamma : bool)
    (item : string * pyval) : option (Call * Kpoints) :=
  let '(k, v) := item in
  if String.eqb k "kppvol" then
    Some (Call_automatic_density_by_vol v force_gamma,
          automatic_density_by_vol struct v force_gamma)
  else if String.eqb k "kppa" then
    Some (Call_automatic_density v force_gamma,
          automatic_density struct v force_gamma)
  else if String.eqb k "length_densities" then
    Some (Call_automatic_density_by_lengths v force_gamma,
          automatic_density_by_lengths struct v force_gamma)
  else None.

(** The candidates of the recognized items, in mapping order, and the calls
    that produce them. *)
Definition candidates (struct : Structure) (force_gamma : bool)
    (items : PmgKpts) : list Kpoints :=
  snd <$> omap (scheme struct force_gamma) items.

Definition scheme_calls (struct : Structure) (force_gamma : bool)
    (items : PmgKpts) : list Call :=
  fst <$> omap (scheme struct force_gamma) items.

(** What [pmg_kpts] is bound to after the candidates [cands] were computed. *)
Definition rebound (shown : binding) (cands : list Kpoints) : binding :=
  match last cands with
  | Some c => inr c
  | None => shown
  end.

End ResolverReference.

(** The last of the densest candidates: everything before it is at most as
    dense, everything after it strictly less. *)
Definition last_densest (cands : list Kpoints) (best : Kpoints) : Prop :=
  ∃ pre post,
    cands = pre ++ best :: post ∧
    Forall (λ c, count c ≤ count best) pre ∧
    Forall (λ c, count c < count best) post.

(** ** Stand-ins for the collaborators

    A structure adapter and a scheme library that return fixed values, to run
    the resolver on concrete policies: the grid of a scheme is read off its
    parameter. *)

Definition fake_grid (v : pyval) : list Z :=
  match v with
  | PInt n => [n; n; n]
  | PList [PInt a; PInt b; PInt c] => [a; b; c]
  | _ => [1; 1; 1]
  end.

Definition fake_style (force_gamma : bool) : KpointsSupportedModes :=
  {| name := if force_gamma then "Gamma" else "Monkhorst" |}.

Definition fake_adapter : StructureAdapter AseAtoms AseAtoms :=
  {| get_structure := λ atoms, atoms;
     site_properties_magmom := λ _, None |}.

Definition fake_library : DensitySchemeLibrary AseAtoms :=
  {| get_kpoints := λ _ _ _, [(0, 0, 0); (0.5, 0, 0)]%float;
     automatic_density_by_vol := λ _ v fg,
       {| kpts := [fake_grid v]; style := fake_style fg |};
     automatic_density := λ _ v fg,
       {| kpts := [fake_grid v]; style := fake_style fg |};
     automatic_density_by_lengths := λ _ v _,
       {| kpts := [fake_grid v]; style := {| name := "Gamma" |} |} |}.

Definition fake_atoms : AseAtoms :=
  {| cell_reciprocal := ((2, 0, 0), (0, 2, 0), (0, 0, 4))%float;
     pbc := [true; true; false] |}.

Definition fake_bulk : AseAtoms :=
  {| cell_reciprocal := ((2, 0, 0), (0, 2, 0), (0, 0, 4))%float;
     pbc := [true; true; true] |}.

(** A cell whose second reciprocal vector is zero. *)
Definition fake_degenerate : AseAtoms :=
  {| cell_reciprocal := ((2, 0, 0), (0, 0, 0), (0, 0, 4))%float;
     pbc := [true; true; true] |}.

(** Two schemes of equal count, 64 points each. *)
Definition tie_policy : PmgKpts :=
  [("kppa", PInt 4); ("length_densities", PList [PInt 2; PInt 2; PInt 16])].

Definition fake_candidates : bool → PmgKpts → list Kpoints :=
  @candidates AseAtoms fake_library fake_atoms.

Definition fake_convert : PmgKpts → AseAtoms → bool → traced (kpts_value * bool) :=
  @convert_pmg_kpts AseAtoms AseAtoms fake_adapter fake_library.

(** ** Lemmas on the operations *)


Lemma wrap64_range z : - 2 ^ 63 ≤ wrap64 z < 2 ^ 63.
Proof.
  unfold wrap64.
  pose proof (Z.mod_pos_bound (z + 2 ^ 63) (2 ^ 64) ltac:(lia)). lia.
Qed.





Lemma recognized_not_line_density k : recognized k = true → k ≠ "line_density".
Proof. intros H ->. discriminate H. Qed.

Lemma dict_lookup_not_key (d : PmgKpts) key :
  Forall (λ kv, kv.1 ≠ key) d → dict_lookup d key = None.
Proof.
  induction 1 as [|[k v] d Hk _ IH]; simpl; [done|].
  destruct (String.eqb_spec k key); [done | exact IH].
Qed.

Lemma dict_lookup_In (d : PmgKpts) key v :
  dict_lookup d key = Some v → (key, v) ∈ d.
Proof.
  induction d as [|[k w] d IH]; simpl; [done|].
  destruct (String.eqb_spec k key) as [->|_].
  - intros [= ->]. left.
  - intros H. right. by apply IH.
Qed.

Lemma kpts_0_has_grid x : has_grid x → kpts_0 x = Ok (grid_of x).
Proof. unfold has_grid, kpts_0, grid_of. by destruct (kpts x). Qed.

Lemma densest_cons best c cands :
  densest best (c :: cands) =
  densest (Some match best with
                | None => c
                | Some m => if count m <=? count c then c else m
                end) cands.
Proof. by destruct best. Qed.

Lemma densest_from m cands :
  ∃ b, densest (Some m) cands = Some b ∧
       ((b = m ∧ Forall (λ c, count c < count m) cands) ∨
        (count m ≤ count b ∧ last_densest cands b)).
Proof.
  revert m. induction cands as [|c cands IH]; intros m.
  - exists m. split; [done|]. left. by split.
  - rewrite densest_cons.
    destruct (Z.leb_spec (count m) (count c)) as [Hle|Hlt].
    + destruct (IH c) as (b & Hb & Hcases). exists b. split; [done|]. right.
      destruct Hcases as [[-> Hall] | [Hcb (pre & post & -> & Hpre & Hpost)]].
      * split; [done|]. exists [], cands. by repeat split.
      * split; [lia|]. exists (c :: pre), post. repeat split; [|done].
        by constructor.
    + destruct (IH m) as (b & Hb & Hcases). exists b. split; [done|].
      destruct Hcases as [[-> Hall] | [Hmb (pre & post & -> & Hpre & Hpost)]].
      * left. split; [done|]. by constructor.
      * right. split; [done|]. exists (c :: pre), post. repeat split; [|done].
        constructor; [lia | done].
Qed.

Lemma densest_first c cands :
  ∃ b, densest None (c :: cands) = Some b ∧ last_densest (c :: cands) b.
Proof.
  rewrite densest_cons.
  destruct (densest_from c cands) as (b & Hb & Hcases). exists b. split; [done|].
  destruct Hcases as [[-> Hall] | [Hcb (pre & post & -> & Hpre & Hpost)]].
  - exists [], cands. by repeat split.
  - exists (c :: pre), post. repeat split; [|done]. by constructor.
Qed.

Lemma last_densest_In cands b : last_densest cands b → b ∈ cands.
Proof.
  intros (pre & post & -> & _). apply elem_of_app. right. apply elem_of_cons. by left.
Qed.

Lemma last_densest_max cands b c : last_densest cands b → c ∈ cands → count c ≤ count b.
Proof.
  intros (pre & post & -> & Hpre & Hpost) Hc.
  rewrite Forall_forall in Hpre, Hpost.
  apply elem_of_app in Hc as [Hc | Hc]; [by apply Hpre|].
  apply elem_of_cons in Hc as [-> | Hc]; [lia|].
  specialize (Hpost _ Hc). simpl in Hpost. lia.
Qed.

Section ResolverFacts.
Context {Atoms Structure : Type}.
Context {adapter : StructureAdapter Atoms Structure}.
Context {library : DensitySchemeLibrary Structure}.
Implicit Types (struct : Structure) (items : PmgKpts) (st : loop_state).

Lemma scheme_recognized struct fg k v :
  recognized k = true → is_Some (scheme struct fg (k, v)).
Proof.
  unfold recognized, scheme.
  destruct (String.eqb k "kppvol"), (String.eqb k "kppa"),
    (String.eqb k "length_densities"); simpl; eauto; discriminate.
Qed.

Lemma scheme_unrecognized struct fg k v :
  recognized k = false → scheme struct fg (k, v) = None.
Proof.
  unfold recognized, scheme.
  by destruct (String.eqb k "kppvol"), (String.eqb k "kppa"),
    (String.eqb k "length_densities").
Qed.

Lemma scheme_is_density_call struct fg item call c :
  scheme struct fg item = Some (call, c) → is_density_call call = true.
Proof.
  destruct item as [k v]. unfold scheme.
  repeat case_match; intros [= <- <-]; done.
Qed.

Lemma dispatch_scheme struct fg shown k v call c :
  scheme struct fg (k, v) = Some (call, c) →
  dispatch struct fg shown k v = ([call], Ok c).
Proof.
  unfold scheme, dispatch. repeat case_match; intros [= <- <-]; done.
Qed.

Lemma dispatch_unrecognized struct fg shown k v :
  scheme struct fg (k, v) = None →
  dispatch struct fg shown k v = ([], Raise (UnsupportedScheme shown)).
Proof. unfold scheme, dispatch. repeat case_match; done. Qed.

Lemma density_step_scheme struct fg st item call c :
  scheme struct fg item = Some (call, c) →
  has_grid c → (∀ m, max_pmg_kpts st = Some m → has_grid m) →
  density_step struct fg st item =
    ([call], Ok {| pmg_kpts_var := inr c;
                   max_pmg_kpts := densest (max_pmg_kpts st) [c] |}).
Proof.
  intros Hs Hc Hm. destruct item as [k v]. unfold density_step. simpl.
  rewrite (dispatch_scheme _ _ _ _ _ _ _ Hs). simpl.
  destruct (max_pmg_kpts st) as [m|]; simpl; [|done].
  rewrite (kpts_0_has_grid c Hc), (kpts_0_has_grid m (Hm m eq_refl)). done.
Qed.

Lemma density_step_unrecognized struct fg st item :
  scheme struct fg item = None →
  density_step struct fg st item = ([], Raise (UnsupportedScheme (pmg_kpts_var st))).
Proof.
  intros Hs. destruct item as [k v]. unfold density_step. simpl.
  by rewrite (dispatch_unrecognized _ _ _ _ _ Hs).
Qed.

Lemma rebound_cons shown c cands : rebound shown (c :: cands) = rebound (inr c) cands.
Proof. unfold rebound. rewrite last_cons. by destruct (last cands). Qed.

Lemma candidates_cons struct fg item items call c :
  scheme struct fg item = Some (call, c) →
  candidates struct fg (item :: items) = c :: candidates struct fg items.
Proof. intros Hs. unfold candidates. simpl. by rewrite Hs. Qed.

Lemma scheme_calls_cons struct fg item items call c :
  scheme struct fg item = Some (call, c) →
  scheme_calls struct fg (item :: items) = call :: scheme_calls struct fg items.
Proof. intros Hs. unfold scheme_calls. simpl. by rewrite Hs. Qed.

(** The loop over recognized items computes every candidate, in order, and
    keeps the densest. *)
Lemma density_loop_recognized struct fg items st :
  Forall (λ item, recognized item.1 = true) items →
  Forall has_grid (candidates struct fg items) →
  (∀ m, max_pmg_kpts st = Some m → has_grid m) →
  density_loop struct fg items st =
    (scheme_calls struct fg items,
     Ok {| pmg_kpts_var := rebound (pmg_kpts_var st) (candidates struct fg items);
           max_pmg_kpts := densest (max_pmg_kpts st) (candidates struct fg items) |}).
Proof.
  intros Hrec. revert st. induction Hrec as [|[k v] items Hk _ IH]; intros st Hgrid Hst.
  - by destruct st.
  - destruct (scheme_recognized struct fg k v Hk) as [[call c] Hs].
    rewrite (candidates_cons _ _ _ _ _ _ Hs) in *.
    rewrite (scheme_calls_cons _ _ _ _ _ _ Hs).
    apply Forall_cons in Hgrid as [Hc Hgrid].
    simpl density_loop. rewrite (density_step_scheme _ _ _ _ _ _ Hs Hc Hst).
    simpl. rewrite IH; [| done |].
    + simpl. by rewrite rebound_cons.
    + simpl. intros m Hm. destruct (max_pmg_kpts st) as [m'|]; simplify_eq; [|done].
      destruct (_ <=? _); auto.
Qed.

Lemma density_loop_app struct fg items1 items2 st :
  density_loop struct fg (items1 ++ items2) st =
  st' ← density_loop struct fg items1 st; density_loop struct fg items2 st'.
Proof.
  revert st. induction items1 as [|item items1 IH]; intros st; simpl.
  - by destruct (density_loop struct fg items2 st).
  - destruct (density_step struct fg st item) as [log [st'|e]]; simpl; [|done].
    rewrite IH.
    destruct (density_loop struct fg items1 st') as [log1 [st''|e]]; simpl; [|done].
    destruct (density_loop struct fg items2 st'') as [log2 r]. by rewrite app_assoc.
Qed.

(** The loop stops at the first unrecognized key, after the candidates of the
    keys before it. *)
Lemma density_loop_first_unrecognized struct fg pre k v post st :
  Forall (λ item, recognized item.1 = true) pre →
  recognized k = false →
  Forall has_grid (candidates struct fg pre) →
  (∀ m, max_pmg_kpts st = Some m → has_grid m) →
  density_loop struct fg (pre ++ (k, v) :: post) st =
    (scheme_calls struct fg pre,
     Raise (UnsupportedScheme (rebound (pmg_kpts_var st) (candidates struct fg pre)))).
Proof.
  intros Hpre Hk Hgrid Hst.
  rewrite density_loop_app, (density_loop_recognized _ _ _ _ Hpre Hgrid Hst).
  simpl. rewrite density_step_unrecognized by by apply scheme_unrecognized.
  simpl. by rewrite app_nil_r.
Qed.

End ResolverFacts.

(** ** Properties of [convert_pmg_kpts] *)

Section ResolverTheorems.
Context {Atoms Structure : Type}.
Context {adapter : StructureAdapter Atoms Structure}.
Context {library : DensitySchemeLibrary Structure}.
Implicit Types (struct : Structure) (items pmg_kpts : PmgKpts) (input_atoms : Atoms).

Lemma recognized_density_mode pmg_kpts :
  Forall (λ item, recognized item.1 = true) pmg_kpts →
  truthy (dict_get pmg_kpts "line_density") = false.
Proof.
  intros Hrec. unfold dict_get. rewrite dict_lookup_not_key; [done|].
  eapply Forall_impl; [exact Hrec|]. intros item. apply recognized_not_line_density.
Qed.

Lemma resolve_best_has_grid m :
  has_grid m → resolve_best (Some m) = Ok (IntList (grid_of m), gamma_flag m).
Proof.
  intros Hm. unfold resolve_best. rewrite (kpts_0_has_grid m Hm). simpl.
  do 3 f_equal. apply list_fmap_id.
Qed.

Lemma density_branch_recognized struct pmg_kpts fg :
  Forall (λ item, recognized item.1 = true) pmg_kpts →
  Forall has_grid (candidates struct fg pmg_kpts) →
  density_branch struct pmg_kpts fg =
    (scheme_calls struct fg pmg_kpts,
     resolve_best (densest None (candidates struct fg pmg_kpts))).
Proof.
  intros Hrec Hgrid. unfold density_branch.
  rewrite (density_loop_recognized _ _ _ _ Hrec Hgrid) by done.
  simpl. by rewrite app_nil_r.
Qed.

Lemma candidates_nonempty struct fg pmg_kpts :
  Forall (λ item, recognized item.1 = true) pmg_kpts → pmg_kpts ≠ [] →
  ∃ c cands, candidates struct fg pmg_kpts = c :: cands.
Proof.
  intros Hrec Hne. destruct Hrec as [|[k v] items Hk _]; [done|].
  destruct (scheme_recognized struct fg k v Hk) as [[call c] Hs].
  rewrite (candidates_cons _ _ _ _ _ _ Hs). eauto.
Qed.

(** In density mode with recognized keys only, the resolver returns the grid
    and the flag of the last of the densest candidates. *)
Lemma convert_pmg_kpts_recognized pmg_kpts input_atoms fg :
  Forall (λ item, recognized item.1 = true) pmg_kpts → pmg_kpts ≠ [] →
  Forall has_grid (candidates (get_structure input_atoms) fg pmg_kpts) →
  ∃ best,
    densest None (candidates (get_structure input_atoms) fg pmg_kpts) = Some best ∧
    last_densest (candidates (get_structure input_atoms) fg pmg_kpts) best ∧
    has_grid best ∧
    convert_pmg_kpts pmg_kpts input_atoms fg =
      (scheme_calls (get_structure input_atoms) fg pmg_kpts,
       Ok (IntList (grid_of best), gamma_flag best)).
Proof.
  intros Hrec Hne Hgrid.
  destruct (candidates_nonempty (get_structure input_atoms) fg _ Hrec Hne) as (c & cands & Hc).
  destruct (densest_first c cands) as (best & Hbest & Hlast).
  rewrite <- Hc in Hbest, Hlast.
  assert (has_grid best) as Hb.
  { rewrite Forall_forall in Hgrid. apply Hgrid. by eapply last_densest_In. }
  exists best. repeat split; [done..|].
  unfold convert_pmg_kpts. rewrite (recognized_density_mode _ Hrec).
  rewrite (density_branch_recognized _ _ _ Hrec Hgrid), Hbest.
  by rewrite resolve_best_has_grid.
Qed.

Lemma kpts_0_Ok x g : kpts_0 x = Ok g → has_grid x.
Proof. unfold kpts_0, has_grid. by destruct (kpts x). Qed.

(** The loop and the dereference succeed only on recognized keys whose
    candidates all have a grid. *)
Lemma density_loop_inv struct fg items st log st' r :
  density_loop struct fg items st = (log, Ok st') →
  resolve_best (max_pmg_kpts st') = Ok r →
  Forall (λ item, recognized item.1 = true) items ∧
  Forall has_grid (candidates struct fg items) ∧
  (∀ m, max_pmg_kpts st = Some m → has_grid m).
Proof.
  revert st log. induction items as [|[k v] items IH]; intros st log Hloop Hres.
  - injection Hloop as <- <-. repeat split; [done..|].
    intros m Hm. rewrite Hm in Hres. simpl in Hres.
    destruct (kpts_0 m) as [g|e] eqn:Hg; [|done]. by eapply kpts_0_Ok.
  - simpl in Hloop.
    destruct (density_step struct fg st (k, v)) as [log1 [st1|e]] eqn:Hstep; [|done].
    simpl in Hloop.
    destruct (density_loop struct fg items st1) as [log2 r2] eqn:Hloop1.
    injection Hloop as <- ->.
    destruct (IH _ _ Hloop1 Hres) as (Hrec & Hgrid & Hst1).
    destruct (recognized k) eqn:Hk.
    2:{ rewrite density_step_unrecognized in Hstep by by apply scheme_unrecognized.
        done. }
    destruct (scheme_recognized struct fg k v Hk) as [[call c] Hs].
    rewrite (candidates_cons _ _ _ _ _ _ Hs).
    unfold density_step in Hstep. simpl in Hstep.
    rewrite (dispatch_scheme _ _ _ _ _ _ _ Hs) in Hstep. simpl in Hstep.
    destruct (max_pmg_kpts st) as [m|] eqn:Hmax; simpl in Hstep.
    + destruct (kpts_0 c) as [g|e] eqn:Hc; [|done]. simpl in Hstep.
      destruct (kpts_0 m) as [g_max|e] eqn:Hm; [|done]. simpl in Hstep.
      apply kpts_0_Ok in Hc, Hm.
      repeat split; [by constructor | by constructor |]. by intros ? [= <-].
    + injection Hstep as <- <-.
      repeat split; [by constructor | | done].
      constructor; [|done]. by apply Hst1.
Qed.

(** The resolver returns a grid only for a non-empty policy of recognized
    keys whose candidates all have a grid. *)
Lemma convert_pmg_kpts_grid_inv pmg_kpts input_atoms fg g gamma :
  (convert_pmg_kpts pmg_kpts input_atoms fg).2 = Ok (IntList g, gamma) →
  Forall (λ item, recognized item.1 = true) pmg_kpts ∧
  pmg_kpts ≠ [] ∧
  Forall has_grid (candidates (get_structure input_atoms) fg pmg_kpts).
Proof.
  unfold convert_pmg_kpts.
  destruct (truthy (dict_get pmg_kpts "line_density")).
  - unfold line_branch. destruct (dict_getitem pmg_kpts "line_density"); simpl; [|done].
    by destruct (get_kpoints _ _ _).
  - unfold density_branch.
    destruct (density_loop _ _ _ _) as [log [st'|e]] eqn:Hloop; simpl; [|done].
    destruct (resolve_best (max_pmg_kpts st')) as [r|e] eqn:Hres; simpl; [|done].
    intros _. destruct (density_loop_inv _ _ _ _ _ _ _ Hloop Hres) as (Hrec & Hgrid & _).
    repeat split; [done | | done].
    intros ->. by injection Hloop as <- <-.
Qed.


Lemma candidates_app struct fg items1 items2 :
  candidates struct fg (items1 ++ items2) =
  candidates struct fg items1 ++ candidates struct fg items2.
Proof. unfold candidates. by rewrite omap_app, fmap_app. Qed.

Lemma scheme_calls_density struct fg items :
  Forall (λ call, is_density_call call = true) (scheme_calls struct fg items).
Proof.
  unfold scheme_calls. apply Forall_fmap, Forall_forall. intros [call c] Hin.
  apply list_elem_of_omap in Hin as (item & _ & Hs).
  by apply (scheme_is_density_call _ _ _ _ _ Hs).
Qed.

Lemma split_first_unrecognized items k v :
  (k, v) ∈ items → recognized k = false →
  ∃ pre k' v' post,
    items = pre ++ (k', v') :: post ∧
    Forall (λ item, recognized item.1 = true) pre ∧ recognized k' = false.
Proof.
  induction items as [|[k0 v0] items IH]; intros Hin Hk.
  - by apply elem_of_nil in Hin.
  - destruct (recognized k0) eqn:Hk0.
    + apply elem_of_cons in Hin as [[= -> ->] | Hin]; [congruence|].
      destruct (IH Hin Hk) as (pre & k' & v' & post & -> & Hpre & Hk').
      exists ((k0, v0) :: pre), k', v', post. repeat split; [|done].
      by constructor.
    + exists [], k0, v0, items. by repeat split.
Qed.

(** In density mode the resolver stops at the first unrecognized key: the
    schemes before it were evaluated, none after it. *)
Lemma convert_pmg_kpts_stops pre k v post input_atoms fg :
  truthy (dict_get (pre ++ (k, v) :: post) "line_density") = false →
  Forall (λ item, recognized item.1 = true) pre → recognized k = false →
  Forall has_grid (candidates (get_structure input_atoms) fg pre) →
  convert_pmg_kpts (pre ++ (k, v) :: post) input_atoms fg =
    (scheme_calls (get_structure input_atoms) fg pre,
     Raise (UnsupportedScheme
              (rebound (inl (pre ++ (k, v) :: post))
                       (candidates (get_structure input_atoms) fg pre)))).
Proof.
  intros Hmode Hpre Hk Hgrid. unfold convert_pmg_kpts, density_branch.
  rewrite Hmode, (density_loop_first_unrecognized _ _ _ _ _ _ _ Hpre Hk Hgrid); done.
Qed.

(** C3. In density mode, a policy with a key that is none of [kppvol],
    [kppa], [length_densities] ends in the unsupported-scheme error, wherever
    the key stands: the resolver evaluates the schemes of the recognized keys
    in front of the first such key and raises on reaching it. *)
Theorem convert_pmg_kpts_unsupported pmg_kpts input_atoms force_gamma k v :
  truthy (dict_get pmg_kpts "line_density") = false →
  (k, v) ∈ pmg_kpts → recognized k = false →
  Forall has_grid (candidates (get_structure input_atoms) force_gamma pmg_kpts) →
  ∃ pre k' v' post,
    pmg_kpts = pre ++ (k', v') :: post ∧
    Forall (λ item, recognized item.1 = true) pre ∧ recognized k' = false ∧
    convert_pmg_kpts pmg_kpts input_atoms force_gamma =
      (scheme_calls (get_structure input_atoms) force_gamma pre,
       Raise (UnsupportedScheme
                (rebound (inl pmg_kpts)
                         (candidates (get_structure input_atoms) force_gamma pre)))).
Proof.
  intros Hmode Hin Hk Hgrid.
  destruct (split_first_unrecognized _ _ _ Hin Hk) as (pre & k' & v' & post & -> & Hpre & Hk').
  exists pre, k', v', post. repeat split; [done..|].
  apply convert_pmg_kpts_stops; [done..|].
  rewrite candidates_app in Hgrid. by apply Forall_app in Hgrid as [? _].
Qed.

Lemma lower_ascii_g c : lower_ascii c = "g"%char ↔ (c = "g" ∨ c = "G")%char.
Proof.
  destruct c as [[] [] [] [] [] [] [] []];
    (split; [intros H; try discriminate H; auto | intros [H | H]; by inversion H]).
Qed.

Lemma lower_ascii_a c : lower_ascii c = "a"%char ↔ (c = "a" ∨ c = "A")%char.
Proof.
  destruct c as [[] [] [] [] [] [] [] []];
    (split; [intros H; try discriminate H; auto | intros [H | H]; by inversion H]).
Qed.

Lemma lower_ascii_m c : lower_ascii c = "m"%char ↔ (c = "m" ∨ c = "M")%char.
Proof.
  destruct c as [[] [] [] [] [] [] [] []];
    (split; [intros H; try discriminate H; auto | intros [H | H]; by inversion H]).
Qed.

(** The comparison of line 101 holds of the spellings of "gamma" in any
    case, and of nothing else. *)
Lemma lower_gamma s : lower s = "gamma" ↔ gamma_in_any_case s.
Proof.
  split.
  - intros H.
    destruct s as [|c1 [|c2 [|c3 [|c4 [|c5 [|c6 s]]]]]]; try discriminate H.
    injection H as H1 H2 H3 H4 H5.
    exists c1, c2, c3, c4, c5. split; [done|].
    rewrite <- lower_ascii_g, <- !lower_ascii_a, <- !lower_ascii_m. done.
  - intros (c1 & c2 & c3 & c4 & c5 & -> & H1 & H2 & H3 & H4 & H5).
    apply lower_ascii_g in H1. apply lower_ascii_a in H2, H5.
    apply lower_ascii_m in H3, H4. simpl. by rewrite H1, H2, H3, H4, H5.
Qed.

(** C4. A policy of one recognized density key returns the grid of that
    scheme's [Kpoints], [kpts[0]] with each entry through [int], and the flag
    is true exactly when the name of its style spells "gamma" in upper or
    lower case letters. *)
Theorem convert_pmg_kpts_single k v input_atoms force_gamma c :
  recognized k = true →
  candidates (get_structure input_atoms) force_gamma [(k, v)] = [c] →
  has_grid c →
  ∃ gamma,
    (convert_pmg_kpts [(k, v)] input_atoms force_gamma).2 =
      Ok (IntList (grid_of c), gamma) ∧
    kpts c !! 0%nat = Some (grid_of c) ∧
    (gamma = true ↔ gamma_in_any_case (name (style c))).
Proof.
  intros Hk Hc Hgrid. exists (gamma_flag c).
  destruct (convert_pmg_kpts_recognized [(k, v)] input_atoms force_gamma)
    as (best & Hbest & _ & _ & Hconv).
  { by repeat constructor. }
  { done. }
  { rewrite Hc. by repeat constructor. }
  rewrite Hc in Hbest. simpl in Hbest. injection Hbest as <-.
  rewrite Hconv. repeat split.
  - unfold has_grid, grid_of in *. by destruct (kpts c).
  - unfold gamma_flag. rewrite String.eqb_eq. apply lower_gamma.
  - unfold gamma_flag. rewrite String.eqb_eq. apply lower_gamma.
Qed.

(** C7. In density mode with at least one recognized key and recognized keys
    only, the loop ends with a best candidate and the dereference of lines
    100-101 succeeds; with an unrecognized key too, the call ends in the
    unsupported-scheme error; in neither case is [None] dereferenced.  On the
    empty policy the loop computes no candidate, leaves the best unset, and
    the dereference fails. *)
Theorem best_is_set_after_iteration pmg_kpts input_atoms force_gamma :
  (truthy (dict_get pmg_kpts "line_density") = false →
   (∃ item, item ∈ pmg_kpts ∧ recognized item.1 = true) →
   Forall has_grid (candidates (get_structure input_atoms) force_gamma pmg_kpts) →
   if forallb (λ item, recognized item.1) pmg_kpts
   then ∃ log st best,
          density_loop (get_structure input_atoms) force_gamma pmg_kpts
            {| pmg_kpts_var := inl pmg_kpts; max_pmg_kpts := None |} = (log, Ok st) ∧
          max_pmg_kpts st = Some best ∧
          resolve_best (max_pmg_kpts st) = Ok (IntList (grid_of best), gamma_flag best) ∧
          convert_pmg_kpts pmg_kpts input_atoms force_gamma =
            (log, Ok (IntList (grid_of best), gamma_flag best))
   else ∃ log shown,
          convert_pmg_kpts pmg_kpts input_atoms force_gamma =
            (log, Raise (UnsupportedScheme shown))) ∧
  density_loop (get_structure input_atoms) force_gamma []
    {| pmg_kpts_var := inl []; max_pmg_kpts := None |} =
    ([], Ok {| pmg_kpts_var := inl []; max_pmg_kpts := None |}) ∧
  convert_pmg_kpts [] input_atoms force_gamma = ([], Raise (NoneTypeHasNoAttribute "kpts")).
Proof.
  split; [|done]. intros Hmode (item & Hin & Hitem) Hgrid.
  destruct (forallb _ pmg_kpts) eqn:Hall.
  - assert (Forall (λ item, recognized item.1 = true) pmg_kpts) as Hrec.
    { apply Forall_forall. intros x Hx. rewrite forallb_forall in Hall.
      apply Hall. by apply list_elem_of_In. }
    destruct (convert_pmg_kpts_recognized pmg_kpts input_atoms force_gamma)
      as (best & Hbest & _ & Hb & Hconv); [done | | done |].
    { intros ->. by apply elem_of_nil in Hin. }
    eexists _, _, best. rewrite (density_loop_recognized _ _ _ _ Hrec Hgrid) by done.
    simpl. repeat split; [done | | done].
    rewrite Hbest. by apply resolve_best_has_grid.
  - assert (∃ k v, (k, v) ∈ pmg_kpts ∧ recognized k = false) as (k & v & Hkv & Hk).
    { apply not_true_iff_false in Hall. rewrite forallb_forall in Hall.
      destruct (decide (Forall (λ item, recognized item.1 = true) pmg_kpts)) as [Hrec|Hrec].
      - exfalso. apply Hall. intros x Hx. rewrite Forall_forall in Hrec.
        apply Hrec. by apply list_elem_of_In.
      - apply not_Forall_Exists in Hrec; [|apply _].
        apply Exists_exists in Hrec as ([k v] & Hx & Hk).
        exists k, v. split; [done|]. by apply not_true_is_false. }
    destruct (split_first_unrecognized _ _ _ Hkv Hk) as (pre & k' & v' & post & -> & Hpre & Hk').
    eexists _, _. apply convert_pmg_kpts_stops; [done..|].
    rewrite candidates_app in Hgrid. by apply Forall_app in Hgrid as [? _].
Qed.

(** C9. A policy whose [line_density] value is falsy is resolved in density
    mode, where the key [line_density] is itself not a density key: the call
    ends in the unsupported-scheme error and the path generator is never
    called. *)
Theorem falsy_line_density_is_unsupported pmg_kpts input_atoms force_gamma v :
  dict_lookup pmg_kpts "line_density" = Some v →
  truthy v = false →
  Forall has_grid (candidates (get_structure input_atoms) force_gamma pmg_kpts) →
  ∃ shown,
    (convert_pmg_kpts pmg_kpts input_atoms force_gamma).2 = Raise (UnsupportedScheme shown) ∧
    Forall (λ call, is_density_call call = true)
           (convert_pmg_kpts pmg_kpts input_atoms force_gamma).1.
Proof.
  intros Hv Hfalsy Hgrid.
  assert (truthy (dict_get pmg_kpts "line_density") = false) as Hmode.
  { unfold dict_get. by rewrite Hv. }
  destruct (split_first_unrecognized pmg_kpts "line_density" v)
    as (pre & k' & v' & post & -> & Hpre & Hk'); [by apply dict_lookup_In | done |].
  rewrite convert_pmg_kpts_stops; [| done.. |].
  - eexists. split; [done|]. apply scheme_calls_density.
  - rewrite candidates_app in Hgrid. by apply Forall_app in Hgrid as [? _].
Qed.

(** C10. In density mode the returned grid is, entry for entry, the grid of
    one candidate that was evaluated for an item of the policy, and the gamma
    flag is computed from the style of that same candidate. *)
Theorem convert_pmg_kpts_one_candidate pmg_kpts input_atoms force_gamma :
  Forall (λ item, recognized item.1 = true) pmg_kpts → pmg_kpts ≠ [] →
  Forall has_grid (candidates (get_structure input_atoms) force_gamma pmg_kpts) →
  ∃ item call best,
    item ∈ pmg_kpts ∧
    scheme (get_structure input_atoms) force_gamma item = Some (call, best) ∧
    call ∈ (convert_pmg_kpts pmg_kpts input_atoms force_gamma).1 ∧
    kpts best !! 0%nat = Some (grid_of best) ∧
    (convert_pmg_kpts pmg_kpts input_atoms force_gamma).2 =
      Ok (IntList (grid_of best),
          String.eqb (lower (name (style best))) "gamma").
Proof.
  intros Hrec Hne Hgrid.
  destruct (convert_pmg_kpts_recognized pmg_kpts input_atoms force_gamma)
    as (best & _ & Hlast & Hb & Hconv); [done..|].
  apply last_densest_In in Hlast. unfold candidates in Hlast.
  apply list_elem_of_fmap in Hlast as ([call c] & -> & Hin).
  pose proof Hin as Hin'.
  apply list_elem_of_omap in Hin as (item & Hitem & Hs).
  exists item, call, c. rewrite Hconv. simpl. repeat split; [done | done | | ].
  - unfold scheme_calls. apply list_elem_of_fmap. by exists (call, c).
  - unfold has_grid, grid_of in *. simpl in *. by destruct (kpts c).
Qed.

(** C2, as the code has it.  When [line_density] maps to a truthy value, the
    resolver takes the line branch whatever the other keys: it calls the path
    generator once and no density scheme, and returns the generator's points
    in their order, stacked, with a false gamma flag ([np.stack] raises when
    the generator gave no point). *)
Theorem convert_pmg_kpts_line_mode pmg_kpts input_atoms force_gamma line_density :
  dict_lookup pmg_kpts "line_density" = Some line_density →
  truthy line_density = true →
  ∃ has_magmoms points,
    has_magmoms = np_any (site_properties_magmom (get_structure input_atoms)) ∧
    points = get_kpoints (get_structure input_atoms) has_magmoms line_density ∧
    convert_pmg_kpts pmg_kpts input_atoms force_gamma =
      ([Call_HighSymmKpath has_magmoms line_density],
       match points with
       | [] => Raise NeedAtLeastOneArray
       | _ => Ok (Stacked points, false)
       end) ∧
    Forall (λ call, is_density_call call = false)
           (convert_pmg_kpts pmg_kpts input_atoms force_gamma).1.
Proof.
  intros Hv Htruthy. eexists _, _. split; [done|]. split; [done|].
  assert (convert_pmg_kpts pmg_kpts input_atoms force_gamma =
            line_branch (get_structure input_atoms) pmg_kpts) as ->.
  { unfold convert_pmg_kpts, dict_get. by rewrite Hv, Htruthy. }
  unfold line_branch, dict_getitem. rewrite Hv. simpl.
  destruct (get_kpoints _ _ _); split; by repeat constructor.
Qed.

End ResolverTheorems.

(** ** Properties of [kspacing_to_grid] *)

(** [ceil_finite] is the ceiling: the least integer at or above the value. *)
Lemma ceil_finite_spec (s : bool) (m : positive) (e : Z) :
  let n := if s then Z.neg m else Z.pos m in
  if 0 <=? e then ceil_finite s m e = n * 2 ^ e
  else (ceil_finite s m e - 1) * 2 ^ (- e) < n ≤ ceil_finite s m e * 2 ^ (- e).
Proof.
  intros n. unfold ceil_finite. fold n. destruct (Z.leb_spec 0 e) as [He|He]; [done|].
  assert (0 < 2 ^ (- e)) as Hd by (apply Z.pow_pos_nonneg; lia).
  pose proof (Z.mul_div_le (- n) _ Hd). pose proof (Z.mul_succ_div_gt (- n) _ Hd). lia.
Qed.

(** [is_finite] holds of the zeros and of the finite numbers. *)
Lemma is_finite_spec x :
  is_finite x = true ↔
  match Prim2SF x with
  | S754_zero _ | S754_finite _ _ _ => True
  | _ => False
  end.
Proof.
  unfold is_finite, is_nan, is_infinity. rewrite !FloatAxioms.eqb_spec, FloatAxioms.abs_spec.
  destruct (Prim2SF x) as [s | s | | s m e].
  - done.
  - by destruct s.
  - done.
  - split; [done|]. intros _. unfold SFeqb. simpl.
    destruct s; by rewrite Z.compare_refl, Pos.compare_cont_refl.
Qed.

Lemma np_ceil_finite x : is_finite x = true ↔ ∃ d, np_ceil x = FIntegral d.
Proof.
  rewrite is_finite_spec. unfold np_ceil.
  destruct (Prim2SF x); (split; [intros H | intros [d Hd]]); try done; eauto.
Qed.

(** Zero divided by a positive float is zero. *)
Lemma np_ceil_zero_div n spacing :
  (n =? 0)%float = true → (0 <? spacing)%float = true →
  np_ceil (n / spacing) = FIntegral 0.
Proof.
  rewrite FloatAxioms.eqb_spec, FloatAxioms.ltb_spec. unfold np_ceil.
  rewrite FloatAxioms.div_spec.
  change (Prim2SF 0) with (S754_zero false).
  destruct (Prim2SF n) as [sn | sn | | sn mn en],
           (Prim2SF spacing) as [ss | ss | | ss ms es];
    try destruct sn; try destruct ss; try done.
Qed.

Ltac flag_cases :=
  repeat case_decide; try done; exfalso;
  repeat match goal with
         | H : _ ∧ _ |- _ => destruct H
         | H : ¬ (_ ∧ _) |- _ => apply H; split
         end; first [lia | discriminate | done].

Lemma pbc_loop_spec flags start (g : list Z) :
  (∀ j, flags !! j = Some false → (start + j < length g)%nat) →
  ∃ g', pbc_loop (enumerate_from start flags) g = Ok g' ∧
        length g' = length g ∧
        ∀ i, g' !! i =
             if decide ((start ≤ i)%nat ∧ flags !! (i - start)%nat = Some false)
             then Some 1 else g !! i.
Proof.
  revert start g. induction flags as [|x flags IH]; intros start g Hrange.
  - exists g. repeat split. intros i. case_decide as H; [|done]. by destruct H.
  - simpl. destruct x; simpl.
    + destruct (IH (S start) g) as (g' & -> & Hlen & Hg').
      { intros j Hj. specialize (Hrange (S j) Hj). lia. }
      exists g'. repeat split; [done|]. intros i. rewrite Hg'.
      destruct (decide (start ≤ i)%nat) as [Hi|Hi]; [|flag_cases].
      destruct (decide (i = start)) as [->|Hne].
      * rewrite Nat.sub_diag. simpl. flag_cases.
      * replace (i - start)%nat with (S (i - S start)) by lia. simpl. flag_cases.
    + unfold setitem. pose proof (Hrange 0%nat eq_refl) as H0.
      rewrite decide_True by lia. simpl.
      destruct (IH (S start) (<[start:=1]> g)) as (g' & -> & Hlen & Hg').
      { intros j Hj. specialize (Hrange (S j) Hj). rewrite length_insert. lia. }
      rewrite length_insert in Hlen.
      exists g'. repeat split; [done|]. intros i. rewrite Hg'.
      destruct (decide (i = start)) as [->|Hne].
      * rewrite Nat.sub_diag. simpl.
        rewrite decide_False by lia. rewrite decide_True by (split; [lia|done]).
        apply list_lookup_insert_eq. lia.
      * rewrite list_lookup_insert_ne by done.
        destruct (decide (start ≤ i)%nat) as [Hi|Hi]; [|flag_cases].
        replace (i - start)%nat with (S (i - S start)) by lia. simpl. flag_cases.
Qed.

(** The loop ends normally only when every false flag has an entry of the
    grid to set. *)
Lemma pbc_loop_inv flags start (g g' : list Z) :
  pbc_loop (enumerate_from start flags) g = Ok g' →
  ∀ j, flags !! j = Some false → (start + j < length g)%nat.
Proof.
  revert start g. induction flags as [|x flags IH]; intros start g Hloop j Hj; [done|].
  simpl in Hloop. destruct x; simpl in Hloop.
  - destruct j as [|j]; [done|]. specialize (IH _ _ Hloop j Hj). lia.
  - unfold setitem in Hloop. case_decide as Hstart; [|done]. simpl in Hloop.
    destruct j as [|j]; [lia|].
    specialize (IH _ _ Hloop j Hj). rewrite length_insert in IH. lia.
Qed.

Section ConverterTheorems.
Variable linalg_norm : vec3 → float.

(** Wherever the three quotients are finite and no flag stands beyond the
    third axis, the converter returns three dimensions: by axis, 1 where the
    flag is false and the clamped ceiling of the quotient elsewhere. *)
Lemma kspacing_to_grid_spec atoms spacing :
  (∀ j, pbc atoms !! j = Some false → (j < 3)%nat) →
  Forall (λ b, is_finite (linalg_norm b / spacing) = true) (reciprocal_rows atoms) →
  ∃ g, kspacing_to_grid linalg_norm atoms spacing = Ok g ∧
       length g = 3%nat ∧
       ∀ i b, reciprocal_rows atoms !! i = Some b →
         ∃ d, np_ceil (linalg_norm b / spacing) = FIntegral d ∧
              g !! i = Some (if decide (pbc atoms !! i = Some false)
                             then 1 else Z.max 1 d).
Proof.
  intros Hrange Hfin. unfold kspacing_to_grid, reciprocal_rows in *.
  destruct (cell_reciprocal atoms) as [[b_x b_y] b_z].
  apply Forall_cons in Hfin as [Hx Hfin]. apply Forall_cons in Hfin as [Hy Hfin].
  apply Forall_cons in Hfin as [Hz _].
  apply np_ceil_finite in Hx as [d_x Hdx], Hy as [d_y Hdy], Hz as [d_z Hdz].
  rewrite Hdx, Hdy, Hdz. simpl.
  destruct (pbc_loop_spec (pbc atoms) 0 [Z.max 1 d_x; Z.max 1 d_y; Z.max 1 d_z])
    as (g & Hg & Hlen & Hlook).
  { intros j Hj. simpl. by apply Hrange. }
  exists g. unfold enumerate. repeat split; [done..|].
  intros i b Hb. rewrite Hlook, Nat.sub_0_r.
  destruct i as [|[|[|i]]]; simpl in Hb; simplify_eq;
    [exists d_x | exists d_y | exists d_z]; (split; [done|]); flag_cases.
Qed.

Lemma three_flags_in_range atoms :
  length (pbc atoms) = 3%nat → ∀ j, pbc atoms !! j = Some false → (j < 3)%nat.
Proof. intros Hlen j Hj. apply lookup_lt_Some in Hj. lia. Qed.

(** A grid is returned for three flags and finite quotients. *)
Lemma kspacing_to_grid_returns atoms spacing :
  length (pbc atoms) = 3%nat →
  Forall (λ b, is_finite (linalg_norm b / spacing) = true) (reciprocal_rows atoms) →
  ∃ g, kspacing_to_grid linalg_norm atoms spacing = Ok g.
Proof.
  intros Hlen Hfin.
  destruct (kspacing_to_grid_spec atoms spacing (three_flags_in_range _ Hlen) Hfin)
    as (g & Hg & _). eauto.
Qed.

(** A grid is returned only where the quotients are finite and the false
    flags stand on the three axes. *)
Lemma kspacing_to_grid_inv atoms spacing g :
  kspacing_to_grid linalg_norm atoms spacing = Ok g →
  (∀ j, pbc atoms !! j = Some false → (j < 3)%nat) ∧
  Forall (λ b, is_finite (linalg_norm b / spacing) = true) (reciprocal_rows atoms).
Proof.
  unfold kspacing_to_grid, reciprocal_rows.
  destruct (cell_reciprocal atoms) as [[b_x b_y] b_z].
  destruct (np_ceil (linalg_norm b_x / spacing)) as [| |d_x] eqn:Hx; try done.
  destruct (np_ceil (linalg_norm b_y / spacing)) as [| |d_y] eqn:Hy; try done.
  destruct (np_ceil (linalg_norm b_z / spacing)) as [| |d_z] eqn:Hz; try done.
  simpl. intros Hloop. split.
  - intros j Hj. by apply (pbc_loop_inv _ _ _ _ Hloop j Hj).
  - repeat constructor; apply np_ceil_finite; eauto.
Qed.

(** What a returned grid holds, axis by axis. *)
Lemma kspacing_to_grid_returned atoms spacing g :
  kspacing_to_grid linalg_norm atoms spacing = Ok g →
  length g = 3%nat ∧
  ∀ i b, reciprocal_rows atoms !! i = Some b →
    ∃ d, np_ceil (linalg_norm b / spacing) = FIntegral d ∧
         g !! i = Some (if decide (pbc atoms !! i = Some false)
                        then 1 else Z.max 1 d).
Proof.
  intros Hg. destruct (kspacing_to_grid_inv _ _ _ Hg) as [Hrange Hfin].
  destruct (kspacing_to_grid_spec atoms spacing Hrange Hfin) as (g' & Hg' & Hspec).
  rewrite Hg in Hg'. by injection Hg' as <-.
Qed.

Lemma reciprocal_rows_lookup atoms i :
  (i < 3)%nat → is_Some (reciprocal_rows atoms !! i).
Proof.
  intros Hi. apply lookup_lt_is_Some. unfold reciprocal_rows.
  destruct (cell_reciprocal atoms) as [[? ?] ?]. simpl. lia.
Qed.

Lemma is_ceiling_integer z : is_ceiling (inject_Z z) z.
Proof. unfold is_ceiling, Qlt, Qle. simpl. lia. Qed.

(** What [np.ceil] gives for a finite float is the ceiling of the number the
    float stands for. *)
Lemma np_ceil_is_ceiling x d :
  np_ceil x = FIntegral d → ∃ q, float_value x = Some q ∧ is_ceiling q d.
Proof.
  unfold np_ceil, float_value.
  destruct (Prim2SF x) as [s | s | | s m e]; try done; intros [= <-].
  - eexists. split; [done|]. apply is_ceiling_integer.
  - eexists. split; [done|].
    pose proof (ceil_finite_spec s m e) as Hspec. simpl in Hspec.
    destruct e as [|p|p].
    + simpl in Hspec. rewrite Hspec. apply is_ceiling_integer.
    + change (0 <=? Z.pos p) with true in Hspec. simpl in Hspec.
      rewrite Hspec. apply is_ceiling_integer.
    + change (0 <=? Z.neg p) with false in Hspec. cbv beta iota in Hspec.
      change (- Z.neg p) with (Z.pos p) in Hspec.
      rewrite <- Pos2Z.inj_pow in Hspec.
      unfold is_ceiling, Qlt, Qle. simpl. lia.
Qed.

(** C5. On a periodic axis the dimension of the returned grid is
    [max(1, ceil(norm / spacing))] for the norm of that axis's reciprocal
    basis vector: the quotient is a finite float, and the dimension is the
    ceiling of the number it stands for, or 1 if that is greater.  A grid is
    returned whenever the three quotients are finite floats (a positive
    spacing can still make a quotient overflow, and [int] raise). *)
Theorem kspacing_to_grid_periodic atoms spacing i b :
  reciprocal_rows atoms !! i = Some b →
  pbc atoms !! i = Some true →
  (length (pbc atoms) = 3%nat →
   Forall (λ b, is_finite (linalg_norm b / spacing) = true) (reciprocal_rows atoms) →
   ∃ g, kspacing_to_grid linalg_norm atoms spacing = Ok g) ∧
  (∀ g, kspacing_to_grid linalg_norm atoms spacing = Ok g →
        ∃ q d, float_value (linalg_norm b / spacing) = Some q ∧
               is_ceiling q d ∧
               g !! i = Some (Z.max 1 d)).
Proof.
  intros Hb Hflag. split; [apply kspacing_to_grid_returns|].
  intros g Hg. destruct (kspacing_to_grid_returned _ _ _ Hg) as [_ Hlook].
  destruct (Hlook i b Hb) as (d & Hd & Hi).
  destruct (np_ceil_is_ceiling _ _ Hd) as (q & Hq & Hceil).
  exists q, d. repeat split; [done | apply Hceil | apply Hceil |].
  rewrite Hi, Hflag. by rewrite decide_False.
Qed.

(** C6. On a non-periodic axis the dimension of the returned grid is 1,
    whatever the formula gives there; the axes keep their order: entry [j] of
    the grid is that of basis vector [j] and flag [j]. *)
Theorem kspacing_to_grid_non_periodic atoms spacing i :
  pbc atoms !! i = Some false →
  (length (pbc atoms) = 3%nat →
   Forall (λ b, is_finite (linalg_norm b / spacing) = true) (reciprocal_rows atoms) →
   ∃ g, kspacing_to_grid linalg_norm atoms spacing = Ok g) ∧
  (∀ g, kspacing_to_grid linalg_norm atoms spacing = Ok g →
        g !! i = Some 1 ∧
        length g = 3%nat ∧
        ∀ j b (periodic : bool), reciprocal_rows atoms !! j = Some b →
          pbc atoms !! j = Some periodic →
          ∃ d, np_ceil (linalg_norm b / spacing) = FIntegral d ∧
               g !! j = Some (if periodic then Z.max 1 d else 1)).
Proof.
  intros Hflag. split; [apply kspacing_to_grid_returns|].
  intros g Hg. destruct (kspacing_to_grid_returned _ _ _ Hg) as [Hlen Hlook].
  destruct (kspacing_to_grid_inv _ _ _ Hg) as [Hrange _].
  repeat split; [|done|].
  - destruct (reciprocal_rows_lookup atoms i (Hrange i Hflag)) as [b Hb].
    destruct (Hlook i b Hb) as (d & _ & Hi). rewrite Hi, Hflag. by rewrite decide_True.
  - intros j b periodic Hb Hj. destruct (Hlook j b Hb) as (d & Hd & Hi).
    exists d. split; [done|]. rewrite Hi, Hj.
    destruct periodic; [by rewrite decide_False | by rewrite decide_True].
Qed.

(** C8. Every entry of the returned grid is an integer of at least 1, and
    for a positive spacing an axis whose basis vector has norm zero gets 1
    (the ceiling is 0 and the clamp lifts it). *)
Theorem kspacing_to_grid_at_least_one atoms spacing :
  (length (pbc atoms) = 3%nat →
   Forall (λ b, is_finite (linalg_norm b / spacing) = true) (reciprocal_rows atoms) →
   ∃ g, kspacing_to_grid linalg_norm atoms spacing = Ok g) ∧
  (∀ g, kspacing_to_grid linalg_norm atoms spacing = Ok g →
        length g = 3%nat ∧
        Forall (λ n, 1 ≤ n) g ∧
        ∀ i b, reciprocal_rows atoms !! i = Some b →
          (linalg_norm b =? 0)%float = true → (0 <? spacing)%float = true →
          np_ceil (linalg_norm b / spacing) = FIntegral 0 ∧ g !! i = Some 1).
Proof.
  split; [apply kspacing_to_grid_returns|].
  intros g Hg. destruct (kspacing_to_grid_returned _ _ _ Hg) as [Hlen Hlook].
  split; [done|]. split.
  - apply Forall_lookup. intros i n Hn.
    destruct (reciprocal_rows_lookup atoms i) as [b Hb].
    { apply lookup_lt_Some in Hn. lia. }
    destruct (Hlook i b Hb) as (d & _ & Hi). rewrite Hi in Hn.
    injection Hn as <-. case_decide; lia.
  - intros i b Hb Hzero Hpos. split; [by apply np_ceil_zero_div|].
    destruct (Hlook i b Hb) as (d & Hd & Hi).
    rewrite (np_ceil_zero_div _ _ Hzero Hpos) in Hd. injection Hd as <-.
    rewrite Hi. by case_decide.
Qed.

End ConverterTheorems.

(** ** The theorems at concrete inputs *)

Ltac fake_grids := cbv; repeat constructor; discriminate.

(** The scenarios of the specification. *)
Example scenario_all_periodic :
  kspacing_to_grid euclidean_norm fake_bulk 0.5 = Ok [4; 4; 8].
Proof. reflexivity. Qed.

Example scenario_non_periodic_axis :
  kspacing_to_grid euclidean_norm fake_atoms 0.5 = Ok [4; 4; 1].
Proof. reflexivity. Qed.

Example scenario_denser_scheme :
  fake_convert [("kppa", PInt 3); ("kppvol", PInt 4)] fake_atoms true =
    ([Call_automatic_density (PInt 3) true; Call_automatic_density_by_vol (PInt 4) true],
     Ok (IntList [4; 4; 4], true)).
Proof. reflexivity. Qed.

Example scenario_unknown_key :
  fake_convert [("foo", PInt 1)] fake_atoms false =
    ([], Raise (UnsupportedScheme (inl [("foo", PInt 1)]))).
Proof. reflexivity. Qed.

(** Among equal counts the later scheme wins, in either order. *)
Example tie_last_wins :
  (fake_convert tie_policy fake_atoms false).2 = Ok (IntList [2; 2; 16], true) ∧
  (fake_convert (reverse tie_policy) fake_atoms false).2 = Ok (IntList [4; 4; 4], false).
Proof. split; reflexivity. Qed.

(** The message of the error shows the last [Kpoints] computed. *)
Example unknown_key_after_scheme :
  fake_convert [("kppa", PInt 4); ("foo", PInt 1); ("kppvol", PInt 5)] fake_atoms false =
    ([Call_automatic_density (PInt 4) false],
     Raise (UnsupportedScheme
              (inr {| kpts := [[4; 4; 4]]; style := {| name := "Monkhorst" |} |}))).
Proof. reflexivity. Qed.

(** A positive spacing can still make a quotient overflow, and [int] raise;
    a zero spacing raises, a negative one gives the clamp. *)
Example spacing_overflow :
  (0 <? 0x1p-1070)%float = true ∧
  kspacing_to_grid euclidean_norm fake_bulk 0x1p-1070 = Raise CannotConvertInfinity.
Proof. split; reflexivity. Qed.

Example spacing_zero :
  kspacing_to_grid euclidean_norm fake_bulk 0 = Raise CannotConvertInfinity.
Proof. reflexivity. Qed.

Example zero_norm_axis :
  kspacing_to_grid euclidean_norm fake_degenerate 0.5 = Ok [4; 1; 8].
Proof. reflexivity. Qed.

Example quotient_rounded_up :
  kspacing_to_grid euclidean_norm fake_bulk 0.75 = Ok [3; 3; 6].
Proof. reflexivity. Qed.

Example gamma_in_capitals :
  gamma_flag {| kpts := [[1; 1; 1]]; style := {| name := "GAMMA" |} |} = true ∧
  gamma_flag {| kpts := [[1; 1; 1]]; style := {| name := "Gamma2" |} |} = false.
Proof. split; reflexivity. Qed.

Example spacing_negative :
  kspacing_to_grid euclidean_norm fake_bulk (-0.5) = Ok [1; 1; 1].
Proof. reflexivity. Qed.

Example np_ceil_values :
  np_ceil 2.5 = FIntegral 3 ∧ np_ceil (-2.5) = FIntegral (-2) ∧
  np_ceil 7 = FIntegral 7 ∧ np_ceil (-0.5) = FIntegral 0 ∧
  np_ceil infinity = FInf false ∧ np_ceil nan = FNaN.
Proof. repeat split; reflexivity. Qed.

Example np_prod_values :
  np_prod [4; 4; 8] = 128 ∧ np_prod [2 ^ 32; 2 ^ 32; 2 ^ 32] = 0.
Proof. split; reflexivity. Qed.



Ltac int64_grids :=
  cbv [fits_int64]; repeat constructor; cbv; first [reflexivity | discriminate].



Lemma convert_pmg_kpts_unsupported_witness :
  ∃ pre k' v' post,
    [("kppa", PInt 4); ("foo", PInt 1); ("kppvol", PInt 5)] = pre ++ (k', v') :: post ∧
    Forall (λ item, recognized item.1 = true) pre ∧ recognized k' = false ∧
    fake_convert [("kppa", PInt 4); ("foo", PInt 1); ("kppvol", PInt 5)] fake_atoms false =
      (scheme_calls (library:=fake_library) fake_atoms false pre,
       Raise (UnsupportedScheme
                (rebound (inl [("kppa", PInt 4); ("foo", PInt 1); ("kppvol", PInt 5)])
                         (fake_candidates false pre)))).
Proof.
  apply (convert_pmg_kpts_unsupported (adapter:=fake_adapter) (library:=fake_library)
           _ fake_atoms false "foo" (PInt 1)).
  - reflexivity.
  - right. left.
  - reflexivity.
  - fake_grids.
Defined.

Lemma convert_pmg_kpts_single_witness :
  (fake_convert [("kppvol", PInt 50)] fake_atoms true).2 =
    Ok (IntList [50; 50; 50], true).
Proof.
  destruct (convert_pmg_kpts_single (adapter:=fake_adapter) (library:=fake_library)
              "kppvol" (PInt 50) fake_atoms true
              {| kpts := [[50; 50; 50]]; style := {| name := "Gamma" |} |})
    as (gamma & Hconv & _ & Hgamma); [reflexivity | reflexivity | discriminate |].
  change ((fake_convert [("kppvol", PInt 50)] fake_atoms true).2 =
          Ok (IntList [50; 50; 50], gamma)) in Hconv.
  rewrite Hconv. do 2 f_equal. apply Hgamma.
  exists "G"%char, "a"%char, "m"%char, "m"%char, "a"%char. repeat split; auto.
Defined.

Lemma best_is_set_after_iteration_witness :
  ∃ log st best,
    density_loop (library:=fake_library) fake_atoms false tie_policy
      {| pmg_kpts_var := inl tie_policy; max_pmg_kpts := None |} = (log, Ok st) ∧
    max_pmg_kpts st = Some best ∧
    resolve_best (max_pmg_kpts st) = Ok (IntList (grid_of best), gamma_flag best) ∧
    fake_convert tie_policy fake_atoms false =
      (log, Ok (IntList (grid_of best), gamma_flag best)).
Proof.
  refine (proj1 (best_is_set_after_iteration (adapter:=fake_adapter)
                   (library:=fake_library) tie_policy fake_atoms false) _ _ _).
  - reflexivity.
  - exists ("kppa", PInt 4). split; [left | reflexivity].
  - fake_grids.
Defined.

Lemma falsy_line_density_is_unsupported_witness :
  ∃ shown,
    (fake_convert [("kppa", PInt 4); ("line_density", PFloat 0)] fake_atoms false).2 =
      Raise (UnsupportedScheme shown) ∧
    Forall (λ call, is_density_call call = true)
      (fake_convert [("kppa", PInt 4); ("line_density", PFloat 0)] fake_atoms false).1.
Proof.
  apply (falsy_line_density_is_unsupported (adapter:=fake_adapter) (library:=fake_library)
           _ fake_atoms false (PFloat 0)).
  - reflexivity.
  - reflexivity.
  - fake_grids.
Defined.

Lemma convert_pmg_kpts_one_candidate_witness :
  ∃ item call best,
    item ∈ tie_policy ∧
    scheme (library:=fake_library) fake_atoms false item = Some (call, best) ∧
    call ∈ (fake_convert tie_policy fake_atoms false).1 ∧
    kpts best !! 0%nat = Some (grid_of best) ∧
    (fake_convert tie_policy fake_atoms false).2 =
      Ok (IntList (grid_of best), String.eqb (lower (name (style best))) "gamma").
Proof.
  apply (convert_pmg_kpts_one_candidate (adapter:=fake_adapter) (library:=fake_library)
           tie_policy fake_atoms false).
  - repeat constructor.
  - discriminate.
  - fake_grids.
Defined.

(** C2 as stated fails: here the key [line_density] is present, and the call
    is resolved in density mode, calls a density scheme and ends in the
    unsupported-scheme error, not in a sequence of path points. *)
Lemma line_density_zero_not_line_mode :
  is_Some (dict_lookup [("kppa", PInt 4); ("line_density", PInt 0)] "line_density") ∧
  fake_convert [("kppa", PInt 4); ("line_density", PInt 0)] fake_atoms false =
    ([Call_automatic_density (PInt 4) false],
     Raise (UnsupportedScheme
              (inr {| kpts := [[4; 4; 4]]; style := {| name := "Monkhorst" |} |}))) ∧
  ¬ (∃ points,
       (fake_convert [("kppa", PInt 4); ("line_density", PInt 0)] fake_atoms false).2 =
         Ok (Stacked points, false)) ∧
  ¬ Forall (λ call, is_density_call call = false)
      (fake_convert [("kppa", PInt 4); ("line_density", PInt 0)] fake_atoms false).1.
Proof.
  split; [by eexists|]. split; [reflexivity|]. split.
  - intros [points H]. discriminate H.
  - intros H. apply Forall_cons in H as [H _]. discriminate H.
Qed.

Lemma convert_pmg_kpts_line_mode_witness :
  ∃ has_magmoms points,
    has_magmoms = false ∧
    points = [(0, 0, 0); (0.5, 0, 0)]%float ∧
    fake_convert [("kppa", PInt 4); ("line_density", PInt 20)] fake_atoms false =
      ([Call_HighSymmKpath has_magmoms (PInt 20)],
       match points with
       | [] => Raise NeedAtLeastOneArray
       | _ => Ok (Stacked points, false)
       end) ∧
    Forall (λ call, is_density_call call = false)
      (fake_convert [("kppa", PInt 4); ("line_density", PInt 20)] fake_atoms false).1.
Proof.
  apply (convert_pmg_kpts_line_mode (adapter:=fake_adapter) (library:=fake_library)
           _ fake_atoms false (PInt 20)).
  - reflexivity.
  - reflexivity.
Defined.

Lemma kspacing_to_grid_periodic_witness :
  ∃ g, kspacing_to_grid euclidean_norm fake_atoms 0.75 = Ok g ∧
       g !! 0%nat = Some 3.
Proof.
  destruct (kspacing_to_grid_periodic euclidean_norm fake_atoms 0.75 0 (2, 0, 0)%float)
    as [Hret Hgrid]; [reflexivity | reflexivity |].
  destruct Hret as [g Hg]; [reflexivity | repeat constructor |].
  destruct (Hgrid g Hg) as (q & d & Hq & [Hlow Hhigh] & Hi).
  exists g. split; [done|]. rewrite Hi. f_equal.
  vm_compute in Hq. injection Hq as <-.
  unfold Qlt in Hlow. unfold Qle in Hhigh. simpl in Hlow, Hhigh. lia.
Defined.

Lemma kspacing_to_grid_non_periodic_witness :
  ∃ g, kspacing_to_grid euclidean_norm fake_atoms 0.5 = Ok g ∧
       g !! 2%nat = Some 1 ∧ length g = 3%nat.
Proof.
  destruct (kspacing_to_grid_non_periodic euclidean_norm fake_atoms 0.5 2)
    as [Hret Hgrid]; [reflexivity |].
  destruct Hret as [g Hg]; [reflexivity | repeat constructor |].
  destruct (Hgrid g Hg) as (Hi & Hlen & _). by exists g.
Defined.

Lemma kspacing_to_grid_at_least_one_witness :
  ∃ g, kspacing_to_grid euclidean_norm fake_degenerate 0.5 = Ok g ∧
       length g = 3%nat ∧ Forall (λ n, 1 ≤ n) g ∧ g !! 1%nat = Some 1.
Proof.
  destruct (kspacing_to_grid_at_least_one euclidean_norm fake_degenerate 0.5)
    as [Hret Hgrid].
  destruct Hret as [g Hg]; [reflexivity | repeat constructor |].
  exists g. destruct (Hgrid g Hg) as (Hlen & Hall & Hzero).
  repeat split; [done..|].
  by apply (Hzero 1%nat (0, 0, 0)%float).
Defined.

(** * Further properties *)

(** ** The converter outside its intended inputs *)

(** A structure with a fourth, false, periodicity flag. *)
Definition fake_four_flags : AseAtoms :=
  {| cell_reciprocal := ((2, 0, 0), (0, 2, 0), (0, 0, 4))%float;
     pbc := [true; true; true; false] |}.

(** The same cell as [fake_atoms], periodic along the first axis only. *)
Definition fake_wire : AseAtoms :=
  {| cell_reciprocal := ((2, 0, 0), (0, 2, 0), (0, 0, 4))%float;
     pbc := [true; false; false] |}.

(** Rounding keeps the sign it is given. *)
Lemma binary_round_aux_sign prec emax s m e l :
  match binary_round_aux prec emax s m e l with
  | S754_zero s' | S754_infinity s' | S754_finite s' _ _ => s' = s
  | S754_nan => True
  end.
Proof.
  unfold binary_round_aux.
  destruct (shr_fexp prec emax m e l) as [mrs' e'].
  destruct (shr_fexp prec emax _ e' loc_Exact) as [mrs'' e''].
  destruct (shr_m mrs''); [done | | done]. by destruct (_ <=? _).
Qed.

Lemma ceil_finite_negative m e : ceil_finite true m e ≤ 0.
Proof.
  unfold ceil_finite. destruct (Z.leb_spec 0 e) as [He|He].
  - assert (0 < 2 ^ e) by (apply Z.pow_pos_nonneg; lia). nia.
  - assert (0 < 2 ^ (- e)) by (apply Z.pow_pos_nonneg; lia).
    assert (0 ≤ Z.pos m / 2 ^ (- e)) by (apply Z.div_pos; lia).
    change (- Z.neg m) with (Z.pos m). lia.
Qed.

(** A non-negative float over a negative one has a ceiling of at most 0. *)
Lemma np_ceil_div_negative n spacing d :
  (0 <=? n)%float = true → (spacing <? 0)%float = true →
  np_ceil (n / spacing) = FIntegral d → d ≤ 0.
Proof.
  rewrite FloatAxioms.leb_spec, FloatAxioms.ltb_spec. unfold np_ceil.
  rewrite FloatAxioms.div_spec.
  change (Prim2SF 0) with (S754_zero false).
  destruct (Prim2SF n) as [sn | sn | | sn mn en],
           (Prim2SF spacing) as [ss | ss | | ss ms es];
    try destruct sn; try destruct ss; try done;
    try (intros _ _ [= <-]; done).
  intros _ _. unfold SF64div, SFdiv.
  destruct (SFdiv_core_binary _ _ _ _ _ _) as [[mz ez] lz].
  pose proof (binary_round_aux_sign prec emax (xorb false true) mz ez lz) as Hsign.
  destruct (binary_round_aux _ _ _ _ _ _) as [s | s | | s m e]; try done.
  - by intros [= <-].
  - simpl in Hsign. subst s. intros [= <-]. apply ceil_finite_negative.
Qed.

(** Any float over a zero is a nan or an infinity. *)
Lemma np_ceil_div_zero n spacing :
  (spacing =? 0)%float = true →
  np_ceil (n / spacing) = FNaN ∨ ∃ s, np_ceil (n / spacing) = FInf s.
Proof.
  rewrite FloatAxioms.eqb_spec. unfold np_ceil. rewrite FloatAxioms.div_spec.
  change (Prim2SF 0) with (S754_zero false).
  destruct (Prim2SF n) as [sn | sn | | sn mn en],
           (Prim2SF spacing) as [ss | ss | | ss ms es];
    try destruct ss; try done; intros _; simpl; eauto.
Qed.

(** The loop raises on the first false flag that has no entry to set. *)
Lemma pbc_loop_raises flags start (g : list Z) j :
  flags !! j = Some false → (length g ≤ start + j)%nat →
  pbc_loop (enumerate_from start flags) g = Raise IndexOutOfRange.
Proof.
  revert start g j. induction flags as [|x flags IH]; intros start g j Hj Hlen; [done|].
  simpl. destruct x; simpl.
  - destruct j as [|j]; [done|]. apply (IH _ _ j); [done | lia].
  - unfold setitem. case_decide as Hstart; [|done]. simpl.
    destruct j as [|j]; [lia|]. apply (IH _ _ j); [done|]. rewrite length_insert. lia.
Qed.

Section ConverterFurther.
Variable linalg_norm : vec3 → float.

(** X1. The converter returns a grid exactly when the three quotients
    [norm / spacing] are finite floats and every false periodicity flag stands
    on one of the three axes (flags beyond the third are ignored when true). *)
Theorem kspacing_to_grid_returns_iff atoms spacing :
  (∃ g, kspacing_to_grid linalg_norm atoms spacing = Ok g) ↔
  Forall (λ b, is_finite (linalg_norm b / spacing) = true) (reciprocal_rows atoms) ∧
  (∀ j, pbc atoms !! j = Some false → (j < 3)%nat).
Proof.
  split.
  - intros [g Hg]. destruct (kspacing_to_grid_inv _ _ _ _ Hg). by split.
  - intros [Hfin Hrange].
    destruct (kspacing_to_grid_spec _ atoms spacing Hrange Hfin) as (g & Hg & _). eauto.
Qed.

(** X2. With finite quotients, a false flag at index 3 or beyond makes the
    assignment of line 131 raise [IndexError]. *)
Theorem kspacing_to_grid_index_error atoms spacing j :
  Forall (λ b, is_finite (linalg_norm b / spacing) = true) (reciprocal_rows atoms) →
  pbc atoms !! j = Some false → (3 ≤ j)%nat →
  kspacing_to_grid linalg_norm atoms spacing = Raise IndexOutOfRange.
Proof.
  intros Hfin Hj Hge. unfold kspacing_to_grid, reciprocal_rows in *.
  destruct (cell_reciprocal atoms) as [[b_x b_y] b_z].
  apply Forall_cons in Hfin as [Hx Hfin]. apply Forall_cons in Hfin as [Hy Hfin].
  apply Forall_cons in Hfin as [Hz _].
  apply np_ceil_finite in Hx as [d_x Hdx], Hy as [d_y Hdy], Hz as [d_z Hdz].
  rewrite Hdx, Hdy, Hdz. simpl. by apply (pbc_loop_raises _ _ _ j).
Qed.

(** X3. A spacing of zero (of either sign) never gives a grid: the first
    quotient is a nan or an infinity and [int] raises. *)
Theorem kspacing_to_grid_zero_spacing atoms spacing :
  (spacing =? 0)%float = true →
  kspacing_to_grid linalg_norm atoms spacing = Raise CannotConvertNaN ∨
  kspacing_to_grid linalg_norm atoms spacing = Raise CannotConvertInfinity.
Proof.
  intros Hzero. unfold kspacing_to_grid.
  destruct (cell_reciprocal atoms) as [[b_x b_y] b_z].
  destruct (np_ceil_div_zero (linalg_norm b_x) spacing Hzero) as [-> | [s ->]]; auto.
Qed.

(** X4. A negative spacing is not rejected: with norms that are not
    negative, every grid returned for it is [1, 1, 1]. *)
Theorem kspacing_to_grid_negative_spacing atoms spacing g :
  (spacing <? 0)%float = true →
  Forall (λ b, (0 <=? linalg_norm b)%float = true) (reciprocal_rows atoms) →
  kspacing_to_grid linalg_norm atoms spacing = Ok g →
  g = [1; 1; 1].
Proof.
  intros Hneg Hnorm Hg.
  destruct (kspacing_to_grid_returned _ _ _ _ Hg) as [Hlen Hlook].
  assert (∀ i, (i < 3)%nat → g !! i = Some 1) as Hone.
  { intros i Hi. destruct (reciprocal_rows_lookup atoms i Hi) as [b Hb].
    destruct (Hlook i b Hb) as (d & Hd & ->). f_equal.
    rewrite Forall_forall in Hnorm.
    pose proof (np_ceil_div_negative _ _ _ (Hnorm b (list_elem_of_lookup_2 _ _ _ Hb)) Hneg Hd).
    case_decide; lia. }
  destruct g as [|a [|b [|c [|? ?]]]]; try done.
  pose proof (Hone 0%nat ltac:(lia)) as H0. pose proof (Hone 1%nat ltac:(lia)) as H1.
  pose proof (Hone 2%nat ltac:(lia)) as H2. simpl in *. congruence.
Qed.

(** X5. The flags of the other axes do not reach an axis: two structures
    with the same reciprocal cell get the same dimension on every axis that
    neither flags as non-periodic. *)
Theorem kspacing_to_grid_axis_independent atoms1 atoms2 spacing g1 g2 i :
  cell_reciprocal atoms1 = cell_reciprocal atoms2 →
  kspacing_to_grid linalg_norm atoms1 spacing = Ok g1 →
  kspacing_to_grid linalg_norm atoms2 spacing = Ok g2 →
  pbc atoms1 !! i ≠ Some false → pbc atoms2 !! i ≠ Some false →
  g1 !! i = g2 !! i.
Proof.
  intros Hcell Hg1 Hg2 Hf1 Hf2.
  destruct (kspacing_to_grid_returned _ _ _ _ Hg1) as [Hlen1 Hlook1].
  destruct (kspacing_to_grid_returned _ _ _ _ Hg2) as [Hlen2 Hlook2].
  destruct (decide (i < 3)%nat) as [Hi|Hi].
  - destruct (reciprocal_rows_lookup atoms1 i Hi) as [b Hb].
    assert (reciprocal_rows atoms2 !! i = Some b) as Hb2.
    { unfold reciprocal_rows in *. by rewrite <- Hcell. }
    destruct (Hlook1 i b Hb) as (d1 & Hd1 & ->).
    destruct (Hlook2 i b Hb2) as (d2 & Hd2 & ->).
    rewrite Hd1 in Hd2. injection Hd2 as <-.
    by rewrite !decide_False.
  - rewrite !lookup_ge_None_2; [done | lia | lia].
Qed.

End ConverterFurther.

(** ** The resolver: modes, errors and order *)

(** A scheme library whose path generator finds no point. *)
Definition fake_library_no_path : DensitySchemeLibrary AseAtoms :=
  {| get_kpoints := λ _ _ _, [];
     automatic_density_by_vol := automatic_density_by_vol (DensitySchemeLibrary:=fake_library);
     automatic_density := automatic_density (DensitySchemeLibrary:=fake_library);
     automatic_density_by_lengths :=
       automatic_density_by_lengths (DensitySchemeLibrary:=fake_library) |}.

(** Two schemes of different counts, 27 and 64 points. *)
Definition two_schemes : PmgKpts := [("kppa", PInt 3); ("kppvol", PInt 4)].

Section ResolverFurther.
Context {Atoms Structure : Type}.
Context {adapter : StructureAdapter Atoms Structure}.
Context {library : DensitySchemeLibrary Structure}.
Implicit Types (struct : Structure) (items pmg_kpts : PmgKpts) (input_atoms : Atoms).

(** How the loop can end: normally, with a best candidate unless nothing was
    iterated, or with one of two exceptions. *)
Lemma density_loop_outcome struct fg items st :
  match (density_loop struct fg items st).2 with
  | Ok st' => if items is [] then st' = st else is_Some (max_pmg_kpts st')
  | Raise e => e = IndexOutOfRange ∨ ∃ shown, e = UnsupportedScheme shown
  end.
Proof.
  revert st. induction items as [|[k v] items IH]; intros st; [done|].
  simpl.
  destruct (density_step struct fg st (k, v)) as [log1 [st1|e]] eqn:Hstep; simpl.
  - specialize (IH st1).
    destruct (density_loop struct fg items st1) as [log2 [st2|e]]; simpl in *; [|done].
    destruct items; [|done]. subst st2.
    unfold density_step in Hstep. simpl in Hstep.
    destruct (dispatch struct fg (pmg_kpts_var st) k v) as [l [c|e]]; simpl in Hstep; [|done].
    destruct (keep_densest c (max_pmg_kpts st)) as [b|e]; simpl in Hstep; [|done].
    by injection Hstep as _ <-.
  - unfold density_step in Hstep. simpl in Hstep.
    destruct (dispatch struct fg (pmg_kpts_var st) k v) as [l [c|e']] eqn:Hd; simpl in Hstep.
    + destruct (keep_densest c (max_pmg_kpts st)) as [b|e'] eqn:Hkeep; simpl in Hstep; [done|].
      injection Hstep as _ <-. left.
      unfold keep_densest in Hkeep. destruct (max_pmg_kpts st) as [m|]; [|done].
      unfold kpts_0 in Hkeep.
      destruct (kpts c !! 0%nat); simpl in Hkeep; [|by injection Hkeep as <-].
      destruct (kpts m !! 0%nat); simpl in Hkeep; [done | by injection Hkeep as <-].
    + injection Hstep as _ <-. right. clear IH.
      unfold dispatch in Hd. repeat case_match; try done.
      injection Hd as _ <-. eauto.
Qed.

Lemma line_branch_outcome struct pmg_kpts v :
  dict_lookup pmg_kpts "line_density" = Some v →
  line_branch struct pmg_kpts =
    ([Call_HighSymmKpath (np_any (site_properties_magmom struct)) v],
     match get_kpoints struct (np_any (site_properties_magmom struct)) v with
     | [] => Raise NeedAtLeastOneArray
     | points => Ok (Stacked points, false)
     end).
Proof.
  intros Hv. unfold line_branch, dict_getitem. rewrite Hv. simpl.
  by destruct (get_kpoints _ _ _).
Qed.

Lemma truthy_get_lookup pmg_kpts key :
  truthy (dict_get pmg_kpts key) = true →
  dict_lookup pmg_kpts key = Some (dict_get pmg_kpts key).
Proof. unfold dict_get. by destruct (dict_lookup pmg_kpts key). Qed.

(** X6. In line mode neither the other keys of the policy nor [force_gamma]
    reach the result: the call is the one of the policy that holds
    [line_density] alone. *)
Theorem convert_pmg_kpts_line_mode_only_key pmg_kpts input_atoms fg fg' v :
  dict_lookup pmg_kpts "line_density" = Some v →
  truthy v = true →
  convert_pmg_kpts pmg_kpts input_atoms fg =
  convert_pmg_kpts [("line_density", v)] input_atoms fg'.
Proof.
  intros Hv Htruthy. unfold convert_pmg_kpts, dict_get. rewrite Hv. simpl.
  rewrite Htruthy. by rewrite !(line_branch_outcome _ _ v).
Qed.

(** X7. The resolver returns a list of grid dimensions exactly for a
    non-empty policy of recognized density keys whose [Kpoints] all hold a
    grid. *)
Theorem convert_pmg_kpts_returns_grid_iff pmg_kpts input_atoms fg :
  (∃ g gamma, (convert_pmg_kpts pmg_kpts input_atoms fg).2 = Ok (IntList g, gamma)) ↔
  pmg_kpts ≠ [] ∧
  Forall (λ item, recognized item.1 = true) pmg_kpts ∧
  Forall has_grid (candidates (get_structure input_atoms) fg pmg_kpts).
Proof.
  split.
  - intros (g & gamma & Hconv).
    destruct (convert_pmg_kpts_grid_inv _ _ _ _ _ Hconv) as (? & ? & ?). done.
  - intros (Hne & Hrec & Hgrid).
    destruct (convert_pmg_kpts_recognized pmg_kpts input_atoms fg Hrec Hne Hgrid)
      as (best & _ & _ & _ & ->). eauto.
Qed.

(** X8. The resolver returns a stacked array of points exactly when the
    value of [line_density] is truthy and the path generator gave at least
    one point; the array is then the generator's and the gamma flag false. *)
Theorem convert_pmg_kpts_returns_points_iff pmg_kpts input_atoms fg points gamma :
  (convert_pmg_kpts pmg_kpts input_atoms fg).2 = Ok (Stacked points, gamma) ↔
  truthy (dict_get pmg_kpts "line_density") = true ∧
  points = get_kpoints (get_structure input_atoms)
             (np_any (site_properties_magmom (get_structure input_atoms)))
             (dict_get pmg_kpts "line_density") ∧
  points ≠ [] ∧ gamma = false.
Proof.
  unfold convert_pmg_kpts.
  destruct (truthy (dict_get pmg_kpts "line_density")) eqn:Htruthy.
  - rewrite (line_branch_outcome _ _ _ (truthy_get_lookup _ _ Htruthy)). simpl.
    destruct (get_kpoints _ _ _) as [|p ps] eqn:Hpoints.
    + split; [done|]. by intros (_ & -> & ? & _).
    + split; [by intros [= <- <-] | by intros (_ & -> & _ & ->)].
  - split; [|by intros [? _]]. unfold density_branch.
    destruct (density_loop _ _ _ _) as [log [st|e]]; simpl; [|done].
    unfold resolve_best. destruct (max_pmg_kpts st) as [m|]; [|done].
    by destruct (kpts_0 m).
Qed.

(** X9. [AttributeError] on [None] is the outcome of the empty policy and of
    no other. *)
Theorem convert_pmg_kpts_attribute_error_iff pmg_kpts input_atoms fg :
  (∃ attr, (convert_pmg_kpts pmg_kpts input_atoms fg).2 =
             Raise (NoneTypeHasNoAttribute attr)) ↔
  pmg_kpts = [].
Proof.
  split; [|intros ->; by exists "kpts"]. intros [attr Hconv].
  unfold convert_pmg_kpts in Hconv.
  destruct (truthy (dict_get pmg_kpts "line_density")) eqn:Htruthy.
  - rewrite (line_branch_outcome _ _ _ (truthy_get_lookup _ _ Htruthy)) in Hconv.
    simpl in Hconv. by destruct (get_kpoints _ _ _).
  - unfold density_branch in Hconv.
    pose proof (density_loop_outcome (get_structure input_atoms) fg pmg_kpts
                  {| pmg_kpts_var := inl pmg_kpts; max_pmg_kpts := None |}) as Hout.
    destruct (density_loop _ _ _ _) as [log [st|e]]; simpl in *.
    + destruct pmg_kpts; [done|]. destruct Hout as [m Hm]. rewrite Hm in Hconv.
      unfold resolve_best, kpts_0 in Hconv. by destruct (kpts m !! 0%nat).
    + injection Hconv as ->. by destruct Hout as [? | [? ?]].
Qed.

(** X10. The subscript [pmg_kpts["line_density"]] of line 69 never raises
    [KeyError]: no call of the resolver ends in one. *)
Theorem convert_pmg_kpts_no_key_error pmg_kpts input_atoms fg key :
  (convert_pmg_kpts pmg_kpts input_atoms fg).2 ≠ Raise (KeyNotFound key).
Proof.
  unfold convert_pmg_kpts.
  destruct (truthy (dict_get pmg_kpts "line_density")) eqn:Htruthy.
  - rewrite (line_branch_outcome _ _ _ (truthy_get_lookup _ _ Htruthy)). simpl.
    by destruct (get_kpoints _ _ _).
  - unfold density_branch.
    pose proof (density_loop_outcome (get_structure input_atoms) fg pmg_kpts
                  {| pmg_kpts_var := inl pmg_kpts; max_pmg_kpts := None |}) as Hout.
    destruct (density_loop _ _ _ _) as [log [st|e]]; simpl in *.
    + unfold resolve_best. destruct (max_pmg_kpts st) as [m|]; [|done].
      unfold kpts_0. by destruct (kpts m !! 0%nat).
    + intros [= ->]. by destruct Hout as [? | [? ?]].
Qed.

End ResolverFurther.

Section ResolverOrder.
Context {Atoms Structure : Type}.
Context {adapter : StructureAdapter Atoms Structure}.
Context {library : DensitySchemeLibrary Structure}.
Implicit Types (struct : Structure) (items pmg_kpts : PmgKpts) (input_atoms : Atoms).

Lemma candidates_Permutation struct fg items1 items2 :
  items1 ≡ₚ items2 → candidates struct fg items1 ≡ₚ candidates struct fg items2.
Proof. intros Hperm. unfold candidates. by rewrite Hperm. Qed.

Lemma scheme_calls_lookup struct fg items i item :
  Forall (λ item, recognized item.1 = true) items →
  items !! i = Some item →
  ∃ call c, scheme struct fg item = Some (call, c) ∧
            scheme_calls struct fg items !! i = Some call.
Proof.
  intros Hrec. revert i. induction Hrec as [|[k v] items Hk _ IH]; intros i Hi; [done|].
  destruct (scheme_recognized struct fg k v Hk) as [[call c] Hs].
  rewrite (scheme_calls_cons _ _ _ _ _ _ Hs).
  destruct i as [|i]; simpl in *.
  - injection Hi as <-. eauto.
  - by apply IH.
Qed.

Lemma scheme_calls_length struct fg items :
  Forall (λ item, recognized item.1 = true) items →
  length (scheme_calls struct fg items) = length items.
Proof.
  induction 1 as [|[k v] items Hk _ IH]; [done|].
  destruct (scheme_recognized struct fg k v Hk) as [[call c] Hs].
  rewrite (scheme_calls_cons _ _ _ _ _ _ Hs). simpl. by rewrite IH.
Qed.

(** With recognized keys only, a candidate that is strictly denser than all
    the others is the one returned. *)
Lemma convert_pmg_kpts_strict_best pmg_kpts input_atoms fg best :
  Forall (λ item, recognized item.1 = true) pmg_kpts →
  Forall has_grid (candidates (get_structure input_atoms) fg pmg_kpts) →
  best ∈ candidates (get_structure input_atoms) fg pmg_kpts →
  (∀ c, c ∈ candidates (get_structure input_atoms) fg pmg_kpts →
        c = best ∨ count c < count best) →
  (convert_pmg_kpts pmg_kpts input_atoms fg).2 =
    Ok (IntList (grid_of best), gamma_flag best).
Proof.
  intros Hrec Hgrid Hbest Hstrict.
  destruct (convert_pmg_kpts_recognized pmg_kpts input_atoms fg)
    as (b & _ & Hlast & _ & ->); [done | | done |].
  { intros ->. by apply elem_of_nil in Hbest. }
  pose proof (last_densest_max _ _ _ Hlast Hbest) as Hle.
  destruct (Hstrict b (last_densest_In _ _ Hlast)) as [-> | Hlt]; [done | lia].
Qed.

(** X11. The order of the mapping matters for ties only: among candidates
    whose dimensions fit numpy's integer, when the [np.prod] of one is
    strictly greater than that of every other, every reordering of the policy
    returns its grid and its flag. *)
Theorem convert_pmg_kpts_order_irrelevant pmg_kpts reordered input_atoms fg best :
  Forall (λ item, recognized item.1 = true) pmg_kpts →
  Forall has_grid (candidates (get_structure input_atoms) fg pmg_kpts) →
  Forall int64_grid (candidates (get_structure input_atoms) fg pmg_kpts) →
  best ∈ candidates (get_structure input_atoms) fg pmg_kpts →
  (∀ c, c ∈ candidates (get_structure input_atoms) fg pmg_kpts →
        c = best ∨ count c < count best) →
  pmg_kpts ≡ₚ reordered →
  (convert_pmg_kpts reordered input_atoms fg).2 =
    Ok (IntList (grid_of best), gamma_flag best) ∧
  (convert_pmg_kpts reordered input_atoms fg).2 =
    (convert_pmg_kpts pmg_kpts input_atoms fg).2.
Proof.
  intros Hrec Hgrid _ Hbest Hstrict Hperm.
  pose proof (candidates_Permutation (get_structure input_atoms) fg _ _ Hperm) as Hcands.
  rewrite (convert_pmg_kpts_strict_best pmg_kpts input_atoms fg best) by done.
  rewrite (convert_pmg_kpts_strict_best reordered input_atoms fg best); [done | ..].
  - by rewrite <- Hperm.
  - by rewrite <- Hcands.
  - by rewrite <- Hcands.
  - intros c Hc. apply Hstrict. by rewrite Hcands.
Qed.

(** X12. One more scheme at the end of a policy either takes over or changes
    nothing: with dimensions that fit numpy's integer, the longer policy
    returns the new candidate when its [np.prod] is at least that of the
    shorter policy's result, and that result otherwise. *)
Theorem convert_pmg_kpts_append pmg_kpts k v input_atoms fg c :
  Forall (λ item, recognized item.1 = true) pmg_kpts → pmg_kpts ≠ [] →
  recognized k = true →
  candidates (get_structure input_atoms) fg [(k, v)] = [c] →
  Forall has_grid (candidates (get_structure input_atoms) fg (pmg_kpts ++ [(k, v)])) →
  Forall int64_grid (candidates (get_structure input_atoms) fg (pmg_kpts ++ [(k, v)])) →
  ∃ b,
    (convert_pmg_kpts pmg_kpts input_atoms fg).2 =
      Ok (IntList (grid_of b), gamma_flag b) ∧
    (convert_pmg_kpts (pmg_kpts ++ [(k, v)]) input_atoms fg).2 =
      Ok (if np_prod (grid_of b) <=? np_prod (grid_of c)
          then (IntList (grid_of c), gamma_flag c)
          else (IntList (grid_of b), gamma_flag b)).
Proof.
  intros Hrec Hne Hk Hc Hgrid _.
  pose proof Hgrid as Hgrid'. rewrite candidates_app in Hgrid'.
  apply Forall_app in Hgrid' as [Hgrid_p _].
  destruct (convert_pmg_kpts_recognized pmg_kpts input_atoms fg Hrec Hne Hgrid_p)
    as (b & Hb & _ & _ & ->).
  exists b. split; [done|].
  destruct (convert_pmg_kpts_recognized (pmg_kpts ++ [(k, v)]) input_atoms fg)
    as (b' & Hb' & _ & _ & ->); [| by destruct pmg_kpts | done |].
  { apply Forall_app. split; [done|]. by repeat constructor. }
  rewrite candidates_app, Hc in Hb'. unfold densest in Hb'.
  rewrite fold_left_app in Hb'. fold (densest None) in Hb'.
  unfold densest in Hb. rewrite Hb in Hb'. simpl in Hb'. injection Hb' as <-.
  unfold count. by destruct (_ <=? _).
Qed.

(** X13. With recognized keys only, every scheme of the policy is evaluated,
    once and in mapping order, also after a denser one was found: call [i] of
    the log is the generator call of item [i]. *)
Theorem convert_pmg_kpts_calls_every_scheme pmg_kpts input_atoms fg :
  Forall (λ item, recognized item.1 = true) pmg_kpts →
  Forall has_grid (candidates (get_structure input_atoms) fg pmg_kpts) →
  length (convert_pmg_kpts pmg_kpts input_atoms fg).1 = length pmg_kpts ∧
  ∀ i item, pmg_kpts !! i = Some item →
    ∃ call c, scheme (get_structure input_atoms) fg item = Some (call, c) ∧
              is_density_call call = true ∧
              (convert_pmg_kpts pmg_kpts input_atoms fg).1 !! i = Some call.
Proof.
  intros Hrec Hgrid.
  assert ((convert_pmg_kpts pmg_kpts input_atoms fg).1 =
          scheme_calls (get_structure input_atoms) fg pmg_kpts) as ->.
  { unfold convert_pmg_kpts. rewrite (recognized_density_mode _ Hrec).
    by rewrite (density_branch_recognized _ _ _ Hrec Hgrid). }
  split; [by apply scheme_calls_length|].
  intros i item Hi.
  destruct (scheme_calls_lookup (get_structure input_atoms) fg _ _ _ Hrec Hi)
    as (call & c & Hs & Hcall).
  exists call, c. repeat split; [done | | done].
  by apply (scheme_is_density_call _ _ _ _ _ Hs).
Qed.

(** X14. The message of the unsupported-scheme error is built from the name
    [pmg_kpts], which the loop has rebound: once a scheme was evaluated, the
    error shows the [Kpoints] of the last one, not the policy nor the key
    that was not recognized. *)
Theorem convert_pmg_kpts_error_shows_last_scheme pre k v post input_atoms fg c :
  truthy (dict_get (pre ++ (k, v) :: post) "line_density") = false →
  Forall (λ item, recognized item.1 = true) pre →
  recognized k = false →
  Forall has_grid (candidates (get_structure input_atoms) fg pre) →
  last (candidates (get_structure input_atoms) fg pre) = Some c →
  (convert_pmg_kpts (pre ++ (k, v) :: post) input_atoms fg).2 =
    Raise (UnsupportedScheme (inr c)).
Proof.
  intros Hmode Hpre Hk Hgrid Hlast.
  rewrite (convert_pmg_kpts_stops _ _ _ _ _ _ Hmode Hpre Hk Hgrid). simpl.
  unfold rebound. by rewrite Hlast.
Qed.

End ResolverOrder.

(** ** The further properties at concrete inputs *)

Example four_flags_all_periodic_beyond :
  kspacing_to_grid euclidean_norm
    {| cell_reciprocal := cell_reciprocal fake_bulk; pbc := [true; true; false; true] |}
    0.5 = Ok [4; 4; 1].
Proof. reflexivity. Qed.

Example no_path_point :
  @convert_pmg_kpts AseAtoms AseAtoms fake_adapter fake_library_no_path
    [("line_density", PInt (-1)); ("kppa", PInt 4)] fake_atoms false =
    ([Call_HighSymmKpath false (PInt (-1))], Raise NeedAtLeastOneArray).
Proof. reflexivity. Qed.

Lemma kspacing_to_grid_index_error_witness :
  kspacing_to_grid euclidean_norm fake_four_flags 0.5 = Raise IndexOutOfRange.
Proof.
  apply (kspacing_to_grid_index_error euclidean_norm fake_four_flags 0.5 3).
  - repeat constructor.
  - reflexivity.
  - lia.
Defined.

Lemma kspacing_to_grid_zero_spacing_witness :
  kspacing_to_grid euclidean_norm fake_bulk (-0) = Raise CannotConvertNaN ∨
  kspacing_to_grid euclidean_norm fake_bulk (-0) = Raise CannotConvertInfinity.
Proof.
  apply (kspacing_to_grid_zero_spacing euclidean_norm fake_bulk (-0)%float).
  reflexivity.
Defined.

Lemma kspacing_to_grid_negative_spacing_witness :
  kspacing_to_grid euclidean_norm fake_bulk (-0.5) = Ok [1; 1; 1] ∧
  [1; 1; 1] = [1; 1; 1].
Proof.
  split; [reflexivity|].
  apply (kspacing_to_grid_negative_spacing euclidean_norm fake_bulk (-0.5)%float).
  - reflexivity.
  - repeat constructor.
  - reflexivity.
Defined.

Lemma kspacing_to_grid_axis_independent_witness :
  kspacing_to_grid euclidean_norm fake_atoms 0.5 = Ok [4; 4; 1] ∧
  kspacing_to_grid euclidean_norm fake_wire 0.5 = Ok [4; 1; 1] ∧
  [4; 4; 1] !! 0%nat = [4; 1; 1] !! 0%nat.
Proof.
  split; [reflexivity|]. split; [reflexivity|].
  apply (kspacing_to_grid_axis_independent euclidean_norm fake_atoms fake_wire 0.5).
  - reflexivity.
  - reflexivity.
  - reflexivity.
  - discriminate.
  - discriminate.
Defined.

Lemma convert_pmg_kpts_line_mode_only_key_witness :
  fake_convert [("kppa", PInt 4); ("line_density", PInt 20)] fake_atoms false =
  fake_convert [("line_density", PInt 20)] fake_atoms true.
Proof.
  apply (convert_pmg_kpts_line_mode_only_key (adapter:=fake_adapter)
           (library:=fake_library) _ fake_atoms false true (PInt 20)).
  - reflexivity.
  - reflexivity.
Defined.

Lemma convert_pmg_kpts_order_irrelevant_witness :
  (fake_convert (reverse two_schemes) fake_atoms false).2 =
    Ok (IntList [4; 4; 4], false) ∧
  (fake_convert (reverse two_schemes) fake_atoms false).2 =
    (fake_convert two_schemes fake_atoms false).2.
Proof.
  apply (convert_pmg_kpts_order_irrelevant (adapter:=fake_adapter)
           (library:=fake_library) two_schemes (reverse two_schemes) fake_atoms false
           {| kpts := [[4; 4; 4]]; style := fake_style false |}).
  - repeat constructor.
  - fake_grids.
  - unfold int64_grid. cbn. int64_grids.
  - right. left.
  - intros c Hc. apply elem_of_cons in Hc as [-> | Hc].
    + right. reflexivity.
    + apply list_elem_of_singleton in Hc as ->. by left.
  - apply perm_swap.
Defined.

Lemma convert_pmg_kpts_append_witness :
  ∃ b,
    (fake_convert [("kppa", PInt 3)] fake_atoms false).2 =
      Ok (IntList (grid_of b), gamma_flag b) ∧
    (fake_convert ([("kppa", PInt 3)] ++ [("kppvol", PInt 4)]) fake_atoms false).2 =
      Ok (if np_prod (grid_of b) <=? np_prod [4; 4; 4]
          then (IntList [4; 4; 4], false)
          else (IntList (grid_of b), gamma_flag b)).
Proof.
  apply (convert_pmg_kpts_append (adapter:=fake_adapter) (library:=fake_library)
           [("kppa", PInt 3)] "kppvol" (PInt 4) fake_atoms false
           {| kpts := [[4; 4; 4]]; style := fake_style false |}).
  - repeat constructor.
  - discriminate.
  - reflexivity.
  - reflexivity.
  - fake_grids.
  - unfold int64_grid. cbn. int64_grids.
Defined.

Lemma convert_pmg_kpts_calls_every_scheme_witness :
  length (fake_convert tie_policy fake_atoms false).1 = length tie_policy ∧
  ∀ i item, tie_policy !! i = Some item →
    ∃ call c, scheme (library:=fake_library) fake_atoms false item = Some (call, c) ∧
              is_density_call call = true ∧
              (fake_convert tie_policy fake_atoms false).1 !! i = Some call.
Proof.
  apply (convert_pmg_kpts_calls_every_scheme (adapter:=fake_adapter)
           (library:=fake_library) tie_policy fake_atoms false).
  - repeat constructor.
  - fake_grids.
Defined.

Lemma convert_pmg_kpts_error_shows_last_scheme_witness :
  (fake_convert ([("kppa", PInt 4)] ++ ("foo", PInt 1) :: [("kppvol", PInt 5)])
     fake_atoms false).2 =
    Raise (UnsupportedScheme
             (inr {| kpts := [[4; 4; 4]]; style := fake_style false |})).
Proof.
  apply (convert_pmg_kpts_error_shows_last_scheme (adapter:=fake_adapter)
           (library:=fake_library) [("kppa", PInt 4)] "foo" (PInt 1)
           [("kppvol", PInt 5)] fake_atoms false).
  - reflexivity.
  - repeat constructor.
  - reflexivity.
  - fake_grids.
  - reflexivity.
Defined.

Section ResolverCalls.
Context {Atoms Structure : Type}.
Context {adapter : StructureAdapter Atoms Structure}.
Context {library : DensitySchemeLibrary Structure}.

Lemma dispatch_log struct fg shown k v :
  Forall (λ call, is_density_call call = true) (dispatch struct fg shown k v).1.
Proof. unfold dispatch. repeat case_match; by repeat constructor. Qed.

Lemma density_loop_log struct fg items st :
  Forall (λ call, is_density_call call = true) (density_loop struct fg items st).1.
Proof.
  revert st. induction items as [|[k v] items IH]; intros st; [by constructor|].
  simpl. unfold density_step. simpl.
  pose proof (dispatch_log struct fg (pmg_kpts_var st) k v) as Hd.
  destruct (dispatch struct fg (pmg_kpts_var st) k v) as [l [c|e]]; simpl in *; [|done].
  destruct (keep_densest c (max_pmg_kpts st)) as [b|e]; simpl.
  - specialize (IH {| pmg_kpts_var := inr c; max_pmg_kpts := Some b |}).
    destruct (density_loop struct fg items _) as [l' r]. simpl in *.
    rewrite app_nil_r. by apply Forall_app.
  - by rewrite app_nil_r.
Qed.

(** X15. One call of the resolver never mixes the two kinds of generator:
    either it calls the path generator, once, and nothing else, or every call
    it makes is a density scheme; which of the two is decided by the value of
    [line_density] alone. *)
Theorem convert_pmg_kpts_one_kind_of_call pmg_kpts input_atoms fg :
  if truthy (dict_get pmg_kpts "line_density")
  then (convert_pmg_kpts pmg_kpts input_atoms fg).1 =
         [Call_HighSymmKpath
            (np_any (site_properties_magmom (get_structure input_atoms)))
            (dict_get pmg_kpts "line_density")]
  else Forall (λ call, is_density_call call = true)
         (convert_pmg_kpts pmg_kpts input_atoms fg).1.
Proof.
  unfold convert_pmg_kpts.
  destruct (truthy (dict_get pmg_kpts "line_density")) eqn:Htruthy.
  - by rewrite (line_branch_outcome _ _ _ (truthy_get_lookup _ _ Htruthy)).
  - unfold density_branch.
    pose proof (density_loop_log (get_structure input_atoms) fg pmg_kpts
                  {| pmg_kpts_var := inl pmg_kpts; max_pmg_kpts := None |}) as Hlog.
    destruct (density_loop _ _ _ _) as [log [st|e]]; simpl in *; [|done].
    by rewrite app_nil_r.
Qed.

End ResolverCalls.
